(** * Build-status aggregation and polling (pages-cms)

  A shallow embedding of
  - the status endpoint [GET /api/[owner]/[repo]/[branch]/status]
    (the aggregator), and
  - the [BuildStatus] client component (the poller),
  together with the properties of the reduction, the error envelope,
  the failure counter and the rendering guards. *)

From Stdlib Require Import String ZArith List Bool Lia DecimalString.
From Stdlib Require Import Permutation.
Import ListNotations.

Local Open Scope string_scope.
Local Open Scope Z_scope.

(** ** JavaScript primitives used by both components *)

(** [x === "lit"] where [x : string | null | undefined]. *)
Definition strict_eq (x : option string) (lit : string) : bool :=
  match x with
  | Some s => String.eqb s lit
  | None => false
  end.

(** Truthiness of a [string | null] value: null and the empty string are
  falsy. *)
Definition truthy (x : option string) : bool :=
  match x with
  | Some s => negb (String.eqb s "")
  | None => false
  end.

(** [a || b] on [string | null] operands. *)
Definition js_or (a b : option string) : option string :=
  if truthy a then a else b.

(** Truthiness of an optional boolean flag ([flag?: boolean]). *)
Definition flag_set (x : option bool) : bool :=
  match x with
  | Some b => b
  | None => false
  end.

(** ** Records received from the upstream API (octokit) *)

Module GhCheckRun.
Record t := mk {
  id : Z;
  name : string;
  status : string;
  conclusion : option string;
  started_at : option string;
  completed_at : option string;
  details_url : option string;
  html_url : string
}.
End GhCheckRun.

Module GhStatus.
Record t := mk {
  id : Z;
  state : string;
  description : option string;
  context : string;
  target_url : option string;
  created_at : string
}.
End GhStatus.

(** [checks.listForRef(...).data] *)
Module GhChecks.
Record t := mk {
  total_count : Z;
  check_runs : list GhCheckRun.t
}.
End GhChecks.

(** [repos.getCombinedStatusForRef(...).data].  [state = None] stands for a
  response carrying no combined state: both comparisons of the handler
  are then false. *)
Module GhCombined.
Record t := mk {
  state : option string;
  statuses : list GhStatus.t
}.
End GhCombined.

(** ** Records sent to the client *)

Module CheckRun.
Record t := mk {
  id : Z;
  name : string;
  status : string;
  conclusion : option string;
  startedAt : option string;
  completedAt : option string;
  detailsUrl : option string;
  htmlUrl : string
}.
End CheckRun.

Module CommitStatus.
Record t := mk {
  id : Z;
  state : string;
  description : option string;
  context : string;
  targetUrl : option string;
  createdAt : string
}.
End CommitStatus.

Module BuildStatusData.
Record t := mk {
  sha : string;
  overallStatus : string;
  overallConclusion : string;
  checkRuns : list CheckRun.t;
  commitStatuses : list CommitStatus.t;
  totalCount : Z;
  permissionError : option bool
}.
End BuildStatusData.

(** ** The aggregator *)

Module Aggregator.

(** *** The reduction (handler lines 52-83) *)

(** The pair of mutable locals [overallStatus], [overallConclusion]. *)
Record Overall := mkOverall {
  overallStatus : string;
  overallConclusion : string
}.

Definition initial : Overall := mkOverall "success" "success".
Definition failure : Overall := mkOverall "failure" "failure".
Definition pending : Overall := mkOverall "pending" "pending".

Definition failing (run : GhCheckRun.t) : bool :=
  strict_eq (GhCheckRun.conclusion run) "failure"
  || strict_eq (GhCheckRun.conclusion run) "cancelled"
  || strict_eq (GhCheckRun.conclusion run) "timed_out".

Definition unfinished (run : GhCheckRun.t) : bool :=
  String.eqb (GhCheckRun.status run) "queued"
  || String.eqb (GhCheckRun.status run) "in_progress".

Definition hasFailure (checkRuns : list GhCheckRun.t) : bool :=
  existsb failing checkRuns.

Definition hasPending (checkRuns : list GhCheckRun.t) : bool :=
  existsb unfinished checkRuns.

(** First pass: [if (check_runs.length > 0) { ... }]. *)
Definition checkRunPass (checkRuns : list GhCheckRun.t) (v : Overall)
  : Overall :=
  if 0 <? Z.of_nat (length checkRuns) then
    if hasFailure checkRuns then failure
    else if hasPending checkRuns then pending
    else v
  else v.

(** Second pass: [if (state === "pending") ... else if (state ===
    "failure" || state === "error") ...]. *)
Definition commitStatusPass (state : option string) (v : Overall)
  : Overall :=
  if strict_eq state "pending" then pending
  else if strict_eq state "failure" || strict_eq state "error" then failure
  else v.

Definition reduce (checkRuns : list GhCheckRun.t) (state : option string)
  : Overall :=
  commitStatusPass state (checkRunPass checkRuns initial).

(** *** Normalisation of the records (field renaming only) *)

Definition normalizeRun (run : GhCheckRun.t) : CheckRun.t :=
  CheckRun.mk (GhCheckRun.id run) (GhCheckRun.name run)
    (GhCheckRun.status run) (GhCheckRun.conclusion run)
    (GhCheckRun.started_at run) (GhCheckRun.completed_at run)
    (GhCheckRun.details_url run) (GhCheckRun.html_url run).

Definition normalizeStatus (st : GhStatus.t) : CommitStatus.t :=
  CommitStatus.mk (GhStatus.id st) (GhStatus.state st)
    (GhStatus.description st) (GhStatus.context st)
    (GhStatus.target_url st) (GhStatus.created_at st).

(** The [data] object of the success response (lines 87-110). *)
Definition buildData (sha : string) (checks : GhChecks.t)
    (combined : GhCombined.t) : BuildStatusData.t :=
  let v := reduce (GhChecks.check_runs checks) (GhCombined.state combined) in
  BuildStatusData.mk sha (overallStatus v) (overallConclusion v)
    (map normalizeRun (GhChecks.check_runs checks))
    (map normalizeStatus (GhCombined.statuses combined))
    (GhChecks.total_count checks
     + Z.of_nat (length (GhCombined.statuses combined)))
    None.

(** *** The handler (lines 15-126) *)

(** A thrown JavaScript [Error]: [error.message] and [error.stack]. *)
Record JsError := mkError {
  message : string;
  stack : option string
}.

(** Result of an awaited call: it returns a value or throws. *)
Inductive Exc (A : Type) : Type :=
| Returned (a : A)
| Thrown (e : JsError).
Arguments Returned {A} a.
Arguments Thrown {A} e.

Definition bind {A B : Type} (c : Exc A) (k : A -> Exc B) : Exc B :=
  match c with
  | Returned a => k a
  | Thrown e => Thrown e
  end.

Notation "x <- c ;; k" := (bind c (fun x => k))
  (at level 61, c at next level, right associativity).

(** [{ user, session }] as returned by [getAuth()]. *)
Record Auth := mkAuth {
  user : option string;
  session : option string
}.

Record Params := mkParams {
  owner : string;
  repo : string;
  branch : string
}.

(** Everything the handler consults and does not own: the session and
    token stores, the three read-only upstream calls (arguments in the
    order token, owner, repo, ref), the URI decoder, the stack recorded by
    [new Error("Token not found")], and the process environment. *)
Record World := mkWorld {
  getAuth : Exc Auth;
  getToken : option string -> string -> string -> Exc (option string);
  decodeURIComponent : string -> Exc string;
  getBranch : string -> string -> string -> string -> Exc string;
  listForRef : string -> string -> string -> string -> Z -> Exc GhChecks.t;
  getCombinedStatusForRef :
    string -> string -> string -> string -> Exc GhCombined.t;
  newErrorStack : option string;
  NODE_ENV : option string
}.

(** Body handed to [new Response(null, ...)] or [Response.json(...)]. *)
Inductive Body :=
| NoBody
| SuccessBody (data : BuildStatusData.t)
| ErrorBody (message : string) (details : option string).

Record Response := mkResponse {
  httpStatus : Z;
  body : Body
}.

(** Keys of the serialised JSON object; a property whose value is
    [undefined] is dropped by the serialiser. *)
Definition jsonKeys (b : Body) : list string :=
  match b with
  | NoBody => []
  | SuccessBody _ => ["status"; "data"]
  | ErrorBody _ details =>
      ["status"; "message"]
      ++ match details with Some _ => ["details"] | None => [] end
  end.

(** Value of the [status] property of the body, when there is one. *)
Definition jsonStatus (b : Body) : option string :=
  match b with
  | NoBody => None
  | SuccessBody _ => Some "success"
  | ErrorBody _ _ => Some "error"
  end.

(** The [try] block.  The guard of line 24 is [!token]: a null token and
    an empty one both throw. *)
Definition tryBlock (w : World) (params : Params) : Exc Response :=
  auth <- getAuth w ;;
  match session auth with
  | None => Returned (mkResponse 401 NoBody)
  | Some _ =>
      token <- getToken w (user auth) (owner params) (repo params) ;;
      if negb (truthy token)
      then Thrown (mkError "Token not found" (newErrorStack w))
      else
      match token with
      | None => Thrown (mkError "Token not found" (newErrorStack w))
      | Some token =>
          ref <- decodeURIComponent w (branch params) ;;
          sha <- getBranch w token (owner params) (repo params) ref ;;
          checks <- listForRef w token (owner params) (repo params) sha 100 ;;
          combined <-
            getCombinedStatusForRef w token (owner params) (repo params) sha ;;
          Returned (mkResponse 200 (SuccessBody (buildData sha checks combined)))
      end
  end.

(** The [catch] block. *)
Definition catchBlock (w : World) (error : JsError) : Response :=
  mkResponse 500
    (ErrorBody
       (if String.eqb (message error) "" then "Unknown error occurred"
        else message error)
       (if strict_eq (NODE_ENV w) "development" then stack error else None)).

Definition GET (w : World) (params : Params) : Response :=
  match tryBlock w params with
  | Returned response => response
  | Thrown error => catchBlock w error
  end.

End Aggregator.

(** ** The poller *)

Module Poller.

(** *** Network outcomes *)

(** The parsed JSON document [data] returned by [response.json()]. *)
Record Payload := mkPayload {
  status : option string;
  data : option BuildStatusData.t;
  message : option string
}.

(** What [await response.json()] does. *)
Inductive Json :=
| Malformed (reason : string)
| Parsed (payload : Payload).

(** What [await fetch(url, { signal })] does: it rejects (network error,
    or the 10 second abort signal), or resolves to a response. *)
Inductive FetchResult :=
| Rejected (reason : string)
| Responded (httpStatus : Z) (json : Json).

(** [response.ok]: the status is in the range 200-299. *)
Definition ok (httpStatus : Z) : bool :=
  (200 <=? httpStatus) && (httpStatus <=? 299).

(** Template-literal rendering of an integer. *)
Definition showZ (n : Z) : string :=
  DecimalString.NilZero.string_of_int (Z.to_int n).

(** *** Component state and effect locals *)

(** The [useState] cells read by the render, the two locals of the effect
    ([failures], [isMounted]), and the [buildStatus] value captured by the
    closure of [fetchStatus] when the effect ran. *)
Record State := mkState {
  buildStatus : option BuildStatusData.t;
  loading : bool;
  error : option string;
  failures : Z;
  isMounted : bool;
  capturedBuildStatus : option BuildStatusData.t
}.

Definition setBuildStatus (v : option BuildStatusData.t) (s : State) : State :=
  mkState v (loading s) (error s) (failures s) (isMounted s)
    (capturedBuildStatus s).

Definition setLoading (v : bool) (s : State) : State :=
  mkState (buildStatus s) v (error s) (failures s) (isMounted s)
    (capturedBuildStatus s).

Definition setError (v : option string) (s : State) : State :=
  mkState (buildStatus s) (loading s) v (failures s) (isMounted s)
    (capturedBuildStatus s).

Definition setFailures (v : Z) (s : State) : State :=
  mkState (buildStatus s) (loading s) (error s) v (isMounted s)
    (capturedBuildStatus s).

(** The cleanup function of the effect (the interval is cleared by the
    scheduler, see [step]). *)
Definition cleanup (s : State) : State :=
  mkState (buildStatus s) (loading s) (error s) (failures s) false
    (capturedBuildStatus s).

(** State of the component when the effect starts on a fresh mount. *)
Definition mounted : State :=
  mkState None true None 0 true None.

(** The sentinel written by the two "stop polling" assignments. *)
Definition stop : Z := 999.

(** *** [fetchStatus] *)

(** Statements of the [try] block after the request was issued.  The
    result is the state reached and, when the block throws, the message of
    the thrown error. *)
Definition afterFetch (r : FetchResult) (s : State) : State * option string :=
  match r with
  | Rejected reason => (s, Some reason)
  | Responded httpStatus json =>
      if negb (ok httpStatus) then
        (setFailures stop s,
         Some ("Failed to fetch build status: " ++ showZ httpStatus))
      else
        match json with
        | Malformed reason => (s, Some reason)
        | Parsed payload =>
            if strict_eq (status payload) "success" && isMounted s then
              let s1 := setFailures 0 (setBuildStatus (data payload) s) in
              match data payload with
              | Some d =>
                  if flag_set (BuildStatusData.permissionError d)
                  then (setFailures stop s1, None)
                  else (s1, None)
              | None =>
                  (s1,
                   Some "Cannot read properties of undefined (reading 'permissionError')")
              end
            else
              (s,
               js_or (message payload) (Some "Failed to fetch build status"))
        end
  end.

(** The [catch] block. *)
Definition onError (msg : string) (s : State) : State :=
  if isMounted s then
    setFailures (Z.min (failures s + 1) 999)
      (setError (js_or (Some msg) (Some "Network error")) s)
  else s.

(** The [finally] block. *)
Definition onSettled (s : State) : State :=
  if isMounted s then setLoading false s else s.

(** One call of [fetchStatus] from its start to its end, no other call
    running in between.  [unmountedMeanwhile] tells whether the cleanup
    ran while the request was in flight.  The boolean of the result tells
    whether a request was performed. *)
Definition fetchStatus (unmountedMeanwhile : bool) (r : FetchResult)
    (s : State) : State * bool :=
  if 3 <=? failures s then (s, false)
  else
    let s1 :=
      match capturedBuildStatus s with
      | None => setLoading true s
      | Some _ => s
      end in
    let s2 := setError None s1 in
    let s3 := if unmountedMeanwhile then cleanup s2 else s2 in
    let '(s4, thrown) := afterFetch r s3 in
    let s5 :=
      match thrown with
      | Some msg => onError msg s4
      | None => s4
      end in
    (onSettled s5, true).

(** *** Scheduling *)

(** [fetchStatus] up to its first [await]: the guard and the two writes
    made before the request is issued.  The boolean tells whether a
    request was issued. *)
Definition issue (s : State) : State * bool :=
  if 3 <=? failures s then (s, false)
  else
    let s1 :=
      match capturedBuildStatus s with
      | None => setLoading true s
      | Some _ => s
      end in
    (setError None s1, true).

(** [fetchStatus] from its [await]s on: the rest of the [try] block with
    the [catch] and [finally] blocks, run on the state found when the
    request settles. *)
Definition settle (r : FetchResult) (s : State) : State :=
  let '(s4, thrown) := afterFetch r s in
  let s5 :=
    match thrown with
    | Some msg => onError msg s4
    | None => s4
    end in
  onSettled s5.

(** What happens during one run of the effect: a scheduled call of
    [fetchStatus] (the immediate one or a tick of the 10 second interval),
    a request in flight that settles, or the cleanup.  Nothing orders the
    settling of a request and the next tick: the abort signal of a request
    is created inside its tick and lasts as long as the interval. *)
Inductive Event :=
| Tick
| Settled (r : FetchResult)
| Cleanup.

(** The state shared by all calls of one effect run, and the number of
    requests in flight. *)
Record Machine := mkMachine {
  current : State;
  inFlight : nat
}.

(** One event.  A tick needs the interval, which the cleanup clears; only
    a request in flight can settle.  The list tells, for a tick, whether
    it issued a request. *)
Definition step (e : Event) (m : Machine) : Machine * list bool :=
  match e with
  | Tick =>
      if isMounted (current m) then
        let '(s, requested) := issue (current m) in
        (mkMachine s (if requested then S (inFlight m) else inFlight m),
         [requested])
      else (m, [])
  | Settled r =>
      match inFlight m with
      | O => (m, [])
      | S n => (mkMachine (settle r (current m)) n, [])
      end
  | Cleanup => (mkMachine (cleanup (current m)) (inFlight m), [])
  end.

Fixpoint run (events : list Event) (m : Machine) : Machine * list bool :=
  match events with
  | [] => (m, [])
  | e :: rest =>
      let '(m1, log1) := step e m in
      let '(m2, log2) := run rest m1 in
      (m2, (log1 ++ log2)%list)
  end.

(** The machine when the effect starts on a fresh mount, and the component
    state after some events from there. *)
Definition fresh : Machine := mkMachine mounted 0.

Definition after (events : list Event) : State :=
  current (fst (run events fresh)).

(** *** Rendering *)

(** [Array.prototype.sort(compare)]: the sort is stable, [a] is placed
    before [b] when [compare(a, b) < 0] and elements that compare equal
    keep their order. *)
Fixpoint sortInsert {A : Type} (compare : A -> A -> Z) (x : A) (l : list A)
  : list A :=
  match l with
  | [] => [x]
  | y :: l' =>
      if compare x y <=? 0 then x :: y :: l'
      else y :: sortInsert compare x l'
  end.

Definition sort {A : Type} (compare : A -> A -> Z) (l : list A) : list A :=
  fold_right (sortInsert compare) [] l.

(** [.filter((t): t is string => t !== null)] *)
Fixpoint filterNotNull (l : list (option string)) : list string :=
  match l with
  | [] => []
  | Some t :: l' => t :: filterNotNull l'
  | None :: l' => filterNotNull l'
  end.


Section Rendering.

(** [new Date(t).getTime()] on the timestamps sent by the aggregator
    (milliseconds since the epoch). *)
Variable getTime : string -> Z.

Definition timestamps (checkRuns : list CheckRun.t) : list string :=
  filterNotNull
    (map (fun run => js_or (CheckRun.completedAt run) (CheckRun.startedAt run))
       checkRuns).

Definition getMostRecentTimestamp (buildStatus : BuildStatusData.t)
  : option string :=
  let timestamps := timestamps (BuildStatusData.checkRuns buildStatus) in
  if Z.of_nat (length timestamps) =? 0 then None
  else hd_error (sort (fun a b => getTime b - getTime a) timestamps).

Definition getStatusText (buildStatus : BuildStatusData.t) : string :=
  if String.eqb (BuildStatusData.overallStatus buildStatus) "pending"
  then "Building..."
  else if String.eqb (BuildStatusData.overallConclusion buildStatus) "success"
  then "Build passing"
  else if String.eqb (BuildStatusData.overallConclusion buildStatus) "failure"
  then "Build failing"
  else "No builds".


End Rendering.

End Poller.

(** ** What the badge shows *)

Module Display.

Import Poller.

(** The lucide icons the component uses, with their class names. *)
Inductive Glyph := Loader2 | CheckCircle2 | XCircle | Clock.

Record Icon := mkIcon {
  glyph : Glyph;
  className : string
}.

Definition getStatusIcon (buildStatus : BuildStatusData.t) : Icon :=
  if String.eqb (BuildStatusData.overallStatus buildStatus) "pending"
  then mkIcon Loader2 "h-4 w-4 animate-spin text-yellow-600"
  else if String.eqb (BuildStatusData.overallConclusion buildStatus) "success"
  then mkIcon CheckCircle2 "h-4 w-4 text-green-600"
  else if String.eqb (BuildStatusData.overallConclusion buildStatus) "failure"
  then mkIcon XCircle "h-4 w-4 text-red-600"
  else mkIcon Clock "h-4 w-4 text-gray-600".

Definition getStatusColor (buildStatus : BuildStatusData.t) : string :=
  if String.eqb (BuildStatusData.overallStatus buildStatus) "pending"
  then "border-yellow-600/30 bg-yellow-50 dark:bg-yellow-950/20"
  else if String.eqb (BuildStatusData.overallConclusion buildStatus) "success"
  then "border-green-600/30 bg-green-50 dark:bg-green-950/20"
  else if String.eqb (BuildStatusData.overallConclusion buildStatus) "failure"
  then "border-red-600/30 bg-red-50 dark:bg-red-950/20"
  else "border-gray-600/30 bg-gray-50 dark:bg-gray-950/20".

Definition githubActionsUrl (owner repo : string) : string :=
  "https://github.com/" ++ owner ++ "/" ++ repo ++ "/actions".

(** One line of the hover panel for a check-run and for a commit status. *)
Record CheckRow := mkCheckRow {
  checkIcon : Icon;
  checkName : string;
  checkNote : option string
}.

Record StatusRow := mkStatusRow {
  statusIcon : Icon;
  statusContext : string
}.

(** The hover panel: each block is present when its list is not empty; the
    check block ends with the "+N more" line when there is one. *)
Record Panel := mkPanel {
  checkBlock : option (list CheckRow * option string);
  statusBlock : option (list StatusRow)
}.

(** The anchor returned by the last [return] of the component. *)
Record Summary := mkSummary {
  href : string;
  colorClass : string;
  icon : Icon;
  text : string;
  subtext : string;
  panel : Panel
}.

Inductive Screen :=
| ShowLoading
| ShowPlaceholder
| ShowNothing
| ShowSummary (summary : Summary).

Section Clock.

(** [Date.now()] at the time of the render, and [new Date(t).getTime()];
    both are integral numbers of milliseconds, on which [Math.floor(x / n)]
    is the floor division and [%] the truncating remainder. *)
Variable now : Z.
Variable getTime : string -> Z.

Definition formatDuration (startedAt completedAt : option string)
  : option string :=
  if negb (truthy startedAt) || negb (truthy completedAt) then None
  else
    match startedAt, completedAt with
    | Some startedAt, Some completedAt =>
        let start := getTime startedAt in
        let end_ := getTime completedAt in
        let durationMs := end_ - start in
        let seconds := durationMs / 1000 in
        let minutes := seconds / 60 in
        let remainingSeconds := Z.rem seconds 60 in
        if 0 <? minutes
        then Some (showZ minutes ++ "m " ++ showZ remainingSeconds ++ "s")
        else Some (showZ seconds ++ "s")
    | _, _ => None
    end.

Definition formatTimeAgo (timestamp : option string) : option string :=
  if negb (truthy timestamp) then None
  else
    match timestamp with
    | Some timestamp =>
        let time := getTime timestamp in
        let diffMs := now - time in
        let seconds := diffMs / 1000 in
        let minutes := seconds / 60 in
        let hours := minutes / 60 in
        let days := hours / 24 in
        if 0 <? days then Some (showZ days ++ "d ago")
        else if 0 <? hours then Some (showZ hours ++ "h ago")
        else if 0 <? minutes then Some (showZ minutes ++ "m ago")
        else Some (showZ seconds ++ "s ago")
    | None => None
    end.

Definition getStatusSubtext (buildStatus : BuildStatusData.t)
  : option string :=
  let mostRecent := getMostRecentTimestamp getTime buildStatus in
  if negb (truthy mostRecent) then None else formatTimeAgo mostRecent.

(** [`${n} check${n !== 1 ? 's' : ''}`] *)
Definition checkCount (n : Z) : string :=
  showZ n ++ " check" ++ (if negb (n =? 1) then "s" else "").

(** [{getStatusSubtext() || `...`}] *)
Definition subtextLine (buildStatus : BuildStatusData.t) : string :=
  match getStatusSubtext buildStatus with
  | Some t =>
      if negb (String.eqb t "") then t
      else checkCount (Z.of_nat (length (BuildStatusData.checkRuns buildStatus)))
  | None =>
      checkCount (Z.of_nat (length (BuildStatusData.checkRuns buildStatus)))
  end.

(** The body of [checkRuns.slice(0, 5).map((run) => ...)]. *)
Definition checkRow (run : CheckRun.t) : CheckRow :=
  let duration :=
    formatDuration (CheckRun.startedAt run) (CheckRun.completedAt run) in
  let completed := String.eqb (CheckRun.status run) "completed" in
  let timeInfo :=
    if completed then duration
    else if truthy (CheckRun.startedAt run)
    then formatTimeAgo (CheckRun.startedAt run)
    else None in
  mkCheckRow
    (if completed then
       if strict_eq (CheckRun.conclusion run) "success"
       then mkIcon CheckCircle2 "h-3 w-3 text-green-600"
       else mkIcon XCircle "h-3 w-3 text-red-600"
     else mkIcon Loader2 "h-3 w-3 animate-spin text-yellow-600")
    (CheckRun.name run)
    (match timeInfo with
     | Some t =>
         if negb (String.eqb t "") then
           Some (if completed then "took " ++ t else "started " ++ t)
         else None
     | None => None
     end).

(** The body of [commitStatuses.slice(0, 3).map((status) => ...)]. *)
Definition statusRow (status : CommitStatus.t) : StatusRow :=
  mkStatusRow
    (if String.eqb (CommitStatus.state status) "success"
     then mkIcon CheckCircle2 "h-3 w-3 text-green-600"
     else if String.eqb (CommitStatus.state status) "pending"
     then mkIcon Clock "h-3 w-3 text-yellow-600"
     else mkIcon XCircle "h-3 w-3 text-red-600")
    (CommitStatus.context status).

Definition panelOf (buildStatus : BuildStatusData.t) : Panel :=
  let checkRuns := BuildStatusData.checkRuns buildStatus in
  let commitStatuses := BuildStatusData.commitStatuses buildStatus in
  mkPanel
    (if 0 <? Z.of_nat (length checkRuns) then
       Some (map checkRow (firstn 5 checkRuns),
             if 5 <? Z.of_nat (length checkRuns)
             then Some ("+" ++ showZ (Z.of_nat (length checkRuns) - 5) ++ " more")
             else None)
     else None)
    (if 0 <? Z.of_nat (length commitStatuses)
     then Some (map statusRow (firstn 3 commitStatuses))
     else None).

Definition summaryOf (owner repo : string) (buildStatus : BuildStatusData.t)
  : Summary :=
  mkSummary (githubActionsUrl owner repo) (getStatusColor buildStatus)
    (getStatusIcon buildStatus) (getStatusText buildStatus)
    (subtextLine buildStatus) (panelOf buildStatus).

(** The component's returns with the markup of the summary filled in. *)
Definition screen (owner repo : string) (s : State) : Screen :=
  let missing :=
    match buildStatus s with None => true | Some _ => false end in
  if loading s && missing then ShowLoading
  else if truthy (error s) || missing then ShowPlaceholder
  else
    match buildStatus s with
    | None => ShowPlaceholder
    | Some b =>
        if (BuildStatusData.totalCount b =? 0)
           || flag_set (BuildStatusData.permissionError b)
        then ShowNothing
        else ShowSummary (summaryOf owner repo b)
    end.

End Clock.

(** The effect body up to the first call of [fetchStatus]: without a
    configured branch it returns at once; otherwise it declares its two
    locals afresh, and its closure captures the [buildStatus] of the render
    it belongs to. *)
Definition startEffect (branch : option string) (s : State) : option State :=
  if negb (truthy branch) then None
  else
    Some (mkState (buildStatus s) (loading s) (error s) 0 true
            (buildStatus s)).

(** One run of the effect: the events of the run, then the cleanup. *)
Definition runEffect (branch : option string) (events : list Event)
    (s : State) : State * list bool :=
  match startEffect branch s with
  | None => (s, [])
  | Some s0 =>
      let '(m, log) := run events (mkMachine s0 0) in
      (cleanup (current m), log)
  end.

(** The [useState] initial values. *)
Definition firstRender : State :=
  mkState None true None 0 false None.

End Display.

(** ** The poller talking to the aggregator *)

Module Link.

Import Aggregator Poller.

(** What [fetch] and [response.json()] deliver for a response of the
    handler: the members of the serialised object ([status], [data],
    [message]); reading an empty body as JSON fails. *)
Definition received (r : Response) : FetchResult :=
  Responded (httpStatus r)
    match body r with
    | NoBody => Malformed "Unexpected end of JSON input"
    | SuccessBody d => Parsed (mkPayload (Some "success") (Some d) None)
    | ErrorBody msg _ => Parsed (mkPayload (Some "error") None (Some msg))
    end.

(** One poll answered by the handler in the world [w]. *)
Definition pollOnce (w : World) (params : Params) (s : State) : State * bool :=
  fetchStatus false (received (GET w params)) s.

End Link.

(** ** Vocabulary of the properties *)

Module Spec.

Import Aggregator.

(** The three values of an overall status or conclusion. *)
Definition verdict (v : string) : Prop :=
  v = "success" \/ v = "pending" \/ v = "failure".

(** The two values other than "success". *)
Definition raised (v : string) : Prop :=
  v = "pending" \/ v = "failure".

(** A check-run whose conclusion is failure, cancelled or timed_out. *)
Definition failed (run : GhCheckRun.t) : Prop :=
  GhCheckRun.conclusion run = Some "failure"
  \/ GhCheckRun.conclusion run = Some "cancelled"
  \/ GhCheckRun.conclusion run = Some "timed_out".

(** A check-run whose status is queued or in_progress. *)
Definition running (run : GhCheckRun.t) : Prop :=
  GhCheckRun.status run = "queued" \/ GhCheckRun.status run = "in_progress".

(** The pending rule for running check-runs as the specification words it, at one list of
    check-runs and one combined state. *)
Definition running_yields_pending
    (checkRuns : list GhCheckRun.t) (state : option string) : Prop :=
  (exists run, In run checkRuns /\ running run) ->
  state = Some "success" \/ state = None ->
  overallStatus (reduce checkRuns state) = "pending".

(** The ways a request with a session can fail before the response is
    built: each names the first call that does not deliver.  A token is
    missing when the store returns null or the empty string. *)
Inductive Failure (w : World) (p : Params) : Prop :=
| AuthFailed e :
    getAuth w = Thrown e -> Failure w p
| TokenFailed a sn e :
    getAuth w = Returned a -> session a = Some sn ->
    getToken w (user a) (owner p) (repo p) = Thrown e -> Failure w p
| TokenMissing a sn token :
    getAuth w = Returned a -> session a = Some sn ->
    getToken w (user a) (owner p) (repo p) = Returned token ->
    truthy token = false -> Failure w p
| BranchMalformed a sn token e :
    getAuth w = Returned a -> session a = Some sn ->
    getToken w (user a) (owner p) (repo p) = Returned (Some token) ->
    truthy (Some token) = true ->
    decodeURIComponent w (branch p) = Thrown e -> Failure w p
| BranchNotFound a sn token ref e :
    getAuth w = Returned a -> session a = Some sn ->
    getToken w (user a) (owner p) (repo p) = Returned (Some token) ->
    truthy (Some token) = true ->
    decodeURIComponent w (branch p) = Returned ref ->
    getBranch w token (owner p) (repo p) ref = Thrown e -> Failure w p
| ChecksFailed a sn token ref sha e :
    getAuth w = Returned a -> session a = Some sn ->
    getToken w (user a) (owner p) (repo p) = Returned (Some token) ->
    truthy (Some token) = true ->
    decodeURIComponent w (branch p) = Returned ref ->
    getBranch w token (owner p) (repo p) ref = Returned sha ->
    listForRef w token (owner p) (repo p) sha 100 = Thrown e -> Failure w p
| StatusFailed a sn token ref sha checks e :
    getAuth w = Returned a -> session a = Some sn ->
    getToken w (user a) (owner p) (repo p) = Returned (Some token) ->
    truthy (Some token) = true ->
    decodeURIComponent w (branch p) = Returned ref ->
    getBranch w token (owner p) (repo p) ref = Returned sha ->
    listForRef w token (owner p) (repo p) sha 100 = Returned checks ->
    getCombinedStatusForRef w token (owner p) (repo p) sha = Thrown e ->
    Failure w p.

(** The calls behind a success body: every one of them returned, and the
    body is built from what the last three delivered. *)
Inductive Delivered (w : World) (p : Params) (d : BuildStatusData.t) : Prop :=
| AllReturned a sn token ref sha checks combined :
    getAuth w = Returned a -> session a = Some sn ->
    getToken w (user a) (owner p) (repo p) = Returned (Some token) ->
    truthy (Some token) = true ->
    decodeURIComponent w (branch p) = Returned ref ->
    getBranch w token (owner p) (repo p) ref = Returned sha ->
    listForRef w token (owner p) (repo p) sha 100 = Returned checks ->
    getCombinedStatusForRef w token (owner p) (repo p) sha
    = Returned combined ->
    d = buildData sha checks combined ->
    Delivered w p d.

(** The total of a result counts the entries of its two lists. *)
Definition countsItsLists (d : BuildStatusData.t) : Prop :=
  BuildStatusData.totalCount d
  = Z.of_nat (length (BuildStatusData.checkRuns d))
    + Z.of_nat (length (BuildStatusData.commitStatuses d)).

(** The error envelope: HTTP 500, [{status: "error", message, details?}],
    no [data] property, [details] only in the development posture. *)
Definition errorEnvelope (w : World) (r : Response) : Prop :=
  httpStatus r = 500
  /\ (exists msg details, body r = ErrorBody msg details)
  /\ jsonStatus (body r) = Some "error"
  /\ In "message" (jsonKeys (body r))
  /\ ~ In "data" (jsonKeys (body r))
  /\ (In "details" (jsonKeys (body r)) -> NODE_ENV w = Some "development").

Import Poller.

(** A failed fetch in the sense of the state machine: a response outside
    the 2xx range, or a JSON payload whose status is not "success". *)
Definition failedFetch (r : FetchResult) : bool :=
  match r with
  | Rejected _ => false
  | Responded httpStatus json =>
      negb (ok httpStatus)
      || match json with
         | Malformed _ => false
         | Parsed payload => negb (strict_eq (status payload) "success")
         end
  end.

(** No attempt of the log performed a request. *)
Definition silent (log : list bool) : Prop :=
  Forall (fun requested => requested = false) log.

(** No request of the events settles with a 2xx payload marked
    "success". *)
Definition unanswered (events : list Event) : Prop :=
  Forall
    (fun e =>
       forall httpStatus payload,
         e = Settled (Responded httpStatus (Parsed payload)) ->
         ok httpStatus = true -> status payload <> Some "success")
    events.

(** Polling is over in [m]: the counter holds the sentinel, and no later
    tick of the mount issues a request as long as no request still in
    flight delivers a success; so none ever does when none is in
    flight. *)
Definition suspended (m : Machine) : Prop :=
  failures (current m) = stop
  /\ (forall events, unanswered events -> silent (snd (run events m)))
  /\ (inFlight m = 0%nat -> forall events, silent (snd (run events m))).





(** The poller's whole claim about a failed fetch, at the moment a request
    in flight settles with [r]: the counter takes the sentinel and no later
    tick issues a request. *)
Definition stopsAtOnce (r : FetchResult) (m : Machine) : Prop :=
  inFlight m <> 0%nat -> failedFetch r = true ->
  failures (current (fst (step (Settled r) m))) = stop
  /\ forall events, silent (snd (run events (fst (step (Settled r) m)))).



End Spec.

(** ** Sample inputs *)

Module Samples.

Import Aggregator Poller.

Definition run (id : Z) (status : string) (conclusion : option string)
    (started completed : option string) : GhCheckRun.t :=
  GhCheckRun.mk id "build" status conclusion started completed None
    "https://github.com/o/r/runs/1".

Definition redRun : GhCheckRun.t :=
  run 1 "completed" (Some "failure")
    (Some "2024-01-15T10:30:00Z") (Some "2024-01-15T10:31:05Z").

Definition busyRun : GhCheckRun.t :=
  run 2 "in_progress" None (Some "2024-01-15T10:32:00Z") None.

Definition greenRun (n : nat) : GhCheckRun.t :=
  run (Z.of_nat n) "completed" (Some "success")
    (Some "2024-01-15T10:30:00Z") (Some "2024-01-15T10:40:00Z").

(** A full first page of 100 check-runs of a commit that has 101. *)
Definition fullPage : GhChecks.t :=
  GhChecks.mk 101 (map greenRun (seq 1 100)).

Definition params : Params := mkParams "o" "r" "main".

(** A signed-in caller whose upstream calls deliver [checks] and
    [combined] for the branch head. *)
Definition world (checks : GhChecks.t) (combined : GhCombined.t) : World :=
  mkWorld
    (Returned (mkAuth (Some "u") (Some "sid")))
    (fun _ _ _ => Returned (Some "tok"))
    (fun s => Returned s)
    (fun _ _ _ _ => Returned "abc123")
    (fun _ _ _ _ _ => Returned checks)
    (fun _ _ _ _ => Returned combined)
    (Some "Error: Token not found at GET")
    (Some "development").

(** The same caller asking for a branch that does not exist. *)
Definition lostBranch : World :=
  mkWorld
    (Returned (mkAuth (Some "u") (Some "sid")))
    (fun _ _ _ => Returned (Some "tok"))
    (fun s => Returned s)
    (fun _ _ _ _ =>
       Thrown (mkError "Branch not found" (Some "HttpError: Branch not found")))
    (fun _ _ _ _ _ => Returned (GhChecks.mk 0 []))
    (fun _ _ _ _ => Returned (GhCombined.mk (Some "pending") []))
    (Some "Error: Token not found at GET")
    (Some "production").

(** A result without any check or status. *)
Definition emptyResult : BuildStatusData.t :=
  BuildStatusData.mk "abc123" "success" "success" [] [] 0 None.

Definition delivered (d : BuildStatusData.t) : FetchResult :=
  Responded 200 (Parsed (mkPayload (Some "success") (Some d) None)).

Definition serverError : FetchResult :=
  Responded 500 (Parsed (mkPayload (Some "error") None (Some "boom"))).

(** A 2xx response whose payload is not marked success. *)
Definition softError : FetchResult :=
  Responded 200 (Parsed (mkPayload (Some "error") None (Some "boom"))).

(** Reading of a timestamp [YYYY-MM-DDTHH:MM:SSZ] as milliseconds since the
    epoch, an instance of [getTime] for the format the upstream uses. *)
Definition digits (s : string) : Z :=
  fold_left
    (fun acc c => 10 * acc + (Z.of_nat (Ascii.nat_of_ascii c) - 48))
    (list_ascii_of_string s) 0.

Definition field (start len : nat) (s : string) : Z :=
  digits (String.substring start len s).

Definition daysFromCivil (y m d : Z) : Z :=
  let y := if m <=? 2 then y - 1 else y in
  let era := y / 400 in
  let yoe := y - era * 400 in
  let doy := (153 * (if 2 <? m then m - 3 else m + 9) + 2) / 5 + d - 1 in
  let doe := yoe * 365 + yoe / 4 - yoe / 100 + doy in
  era * 146097 + doe - 719468.

Definition isoTime (s : string) : Z :=
  let days := daysFromCivil (field 0 4 s) (field 5 2 s) (field 8 2 s) in
  (((days * 24 + field 11 2 s) * 60 + field 14 2 s) * 60 + field 17 2 s)
  * 1000.

Definition successStatus : GhStatus.t :=
  GhStatus.mk 7 "success" None "ci/deploy" None "2024-01-15T10:41:00Z".

Definition responseOf (checks : GhChecks.t) (combined : GhCombined.t)
  : Response :=
  GET (world checks combined) params.

Definition verdictOf (r : Response) : option (string * string * Z) :=
  match body r with
  | SuccessBody d =>
      Some (BuildStatusData.overallStatus d,
            BuildStatusData.overallConclusion d,
            BuildStatusData.totalCount d)
  | _ => None
  end.

(** A completed run that was skipped. *)
Definition skippedRun : GhCheckRun.t :=
  run 4 "completed" (Some "skipped")
    (Some "2024-01-15T10:30:00Z") (Some "2024-01-15T10:30:01Z").

(** A result flagged with a permission error. *)
Definition deniedResult : BuildStatusData.t :=
  BuildStatusData.mk "abc123" "success" "success" [] [] 3 (Some true).

(** A signed-in caller for whom no token is stored. *)
Definition noToken : World :=
  mkWorld
    (Returned (mkAuth (Some "u") (Some "sid")))
    (fun _ _ _ => Returned None)
    (fun s => Returned s)
    (fun _ _ _ _ => Returned "abc123")
    (fun _ _ _ _ _ => Returned (GhChecks.mk 0 []))
    (fun _ _ _ _ => Returned (GhCombined.mk None []))
    (Some "Error: Token not found at GET")
    (Some "production").

(** A signed-in caller whose stored token is the empty string. *)
Definition emptyToken : World :=
  mkWorld
    (Returned (mkAuth (Some "u") (Some "sid")))
    (fun _ _ _ => Returned (Some ""))
    (fun s => Returned s)
    (fun _ _ _ _ => Returned "abc123")
    (fun _ _ _ _ _ => Returned (GhChecks.mk 0 []))
    (fun _ _ _ _ => Returned (GhCombined.mk None []))
    (Some "Error: Token not found at GET")
    (Some "production").

(** A session store that throws an error without a message. *)
Definition brokenAuth : World :=
  mkWorld
    (Thrown (mkError "" None))
    (fun _ _ _ => Returned None)
    (fun s => Returned s)
    (fun _ _ _ _ => Returned "abc123")
    (fun _ _ _ _ _ => Returned (GhChecks.mk 0 []))
    (fun _ _ _ _ => Returned (GhCombined.mk None []))
    None
    (Some "development").

End Samples.

(** ** Facts about the primitives *)

Lemma strict_eq_true (x : option string) (lit : string) :
  strict_eq x lit = true <-> x = Some lit.
Proof.
  destruct x as [s|]; simpl.
  - rewrite String.eqb_eq. split; [intros -> | intros [= ->]]; reflexivity.
  - split; discriminate.
Qed.

Lemma strict_eq_false (x : option string) (lit : string) :
  strict_eq x lit = false <-> x <> Some lit.
Proof.
  rewrite <- strict_eq_true. destruct (strict_eq x lit); split; congruence.
Qed.

Example isoTime_epoch : Samples.isoTime "1970-01-01T00:00:00Z" = 0.
Proof. reflexivity. Qed.

Example isoTime_2024 : Samples.isoTime "2024-01-15T10:30:00Z" = 1705314600000.
Proof. reflexivity. Qed.

(** ** Properties of the reduction *)

Module ReductionProps.

Import Aggregator Spec.

Lemma failing_iff (run : GhCheckRun.t) : failing run = true <-> failed run.
Proof.
  unfold failing, failed.
  rewrite !orb_true_iff, !strict_eq_true. tauto.
Qed.

Lemma unfinished_iff (run : GhCheckRun.t) :
  unfinished run = true <-> running run.
Proof.
  unfold unfinished, running.
  rewrite orb_true_iff, !String.eqb_eq. tauto.
Qed.

Lemma hasFailure_iff (checkRuns : list GhCheckRun.t) :
  hasFailure checkRuns = true <-> exists run, In run checkRuns /\ failed run.
Proof.
  unfold hasFailure. rewrite existsb_exists.
  split; intros (run & Hin & H); exists run; split; auto;
    now apply failing_iff.
Qed.

Lemma hasPending_iff (checkRuns : list GhCheckRun.t) :
  hasPending checkRuns = true <-> exists run, In run checkRuns /\ running run.
Proof.
  unfold hasPending. rewrite existsb_exists.
  split; intros (run & Hin & H); exists run; split; auto;
    now apply unfinished_iff.
Qed.

Lemma nonempty_length {A : Type} (x : A) (l : list A) :
  In x l -> (0 <? Z.of_nat (length l)) = true.
Proof.
  destruct l as [|y l]; [intros [] | intros _].
  apply Z.ltb_lt. simpl length. lia.
Qed.

(** The first pass on a list holding a failed run. *)
Lemma checkRunPass_failure (checkRuns : list GhCheckRun.t) (v : Overall) :
  (exists run, In run checkRuns /\ failed run) ->
  checkRunPass checkRuns v = failure.
Proof.
  intros H. unfold checkRunPass.
  destruct H as (run & Hin & Hf).
  rewrite (nonempty_length run checkRuns Hin).
  replace (hasFailure checkRuns) with true; [reflexivity|].
  symmetry. apply hasFailure_iff. eauto.
Qed.

(** The first pass on a list holding a running run and no failed one. *)
Lemma checkRunPass_pending (checkRuns : list GhCheckRun.t) (v : Overall) :
  (exists run, In run checkRuns /\ running run) ->
  (forall run, In run checkRuns -> ~ failed run) ->
  checkRunPass checkRuns v = pending.
Proof.
  intros (run & Hin & Hr) Hnone. unfold checkRunPass.
  rewrite (nonempty_length run checkRuns Hin).
  destruct (hasFailure checkRuns) eqn:Hf.
  - apply hasFailure_iff in Hf. destruct Hf as (bad & Hbad & Hfailed).
    exfalso. exact (Hnone bad Hbad Hfailed).
  - replace (hasPending checkRuns) with true; [reflexivity|].
    symmetry. apply hasPending_iff. eauto.
Qed.

(** The outcomes of each pass, by cases. *)
Lemma checkRunPass_cases (checkRuns : list GhCheckRun.t) (v : Overall) :
  checkRunPass checkRuns v = failure
  \/ checkRunPass checkRuns v = pending
  \/ checkRunPass checkRuns v = v.
Proof.
  unfold checkRunPass.
  destruct (0 <? Z.of_nat (length checkRuns)); auto.
  destruct (hasFailure checkRuns); auto.
  destruct (hasPending checkRuns); auto.
Qed.

Lemma commitStatusPass_cases (state : option string) (v : Overall) :
  commitStatusPass state v = failure
  \/ commitStatusPass state v = pending
  \/ commitStatusPass state v = v.
Proof.
  unfold commitStatusPass.
  destruct (strict_eq state "pending"); auto.
  destruct (strict_eq state "failure" || strict_eq state "error"); auto.
Qed.

(** Both passes write the two locals together. *)
Lemma reduce_cases (checkRuns : list GhCheckRun.t) (state : option string) :
  reduce checkRuns state = initial
  \/ reduce checkRuns state = pending
  \/ reduce checkRuns state = failure.
Proof.
  unfold reduce.
  destruct (commitStatusPass_cases state (checkRunPass checkRuns initial))
    as [-> | [-> | ->]]; auto.
  destruct (checkRunPass_cases checkRuns initial) as [-> | [-> | ->]]; auto.
Qed.

(** C1. Whatever the check-runs are, a combined commit status whose state is
    "pending" makes the reduction yield overallStatus = "pending" and
    overallConclusion = "pending"; a failed check-run does not change
    this. *)
Theorem C1_pending_state_overrides
    (checkRuns : list GhCheckRun.t) (combined : GhCombined.t) :
  GhCombined.state combined = Some "pending" ->
  overallStatus (reduce checkRuns (GhCombined.state combined)) = "pending"
  /\ overallConclusion (reduce checkRuns (GhCombined.state combined))
     = "pending".
Proof.
  intros ->. unfold reduce, commitStatusPass. simpl. split; reflexivity.
Qed.

Lemma C1_pending_state_overrides_witness :
  (exists run, In run [Samples.redRun] /\ failed run)
  /\ overallStatus (reduce [Samples.redRun] (Some "pending")) = "pending"
  /\ overallConclusion (reduce [Samples.redRun] (Some "pending")) = "pending".
Proof.
  split.
  - exists Samples.redRun. split; [left; reflexivity | left; reflexivity].
  - apply (C1_pending_state_overrides [Samples.redRun]
             (GhCombined.mk (Some "pending") [])).
    reflexivity.
Defined.

(** C5. For every list of check-runs and every combined state, the
    overallStatus and the overallConclusion of the reduction are each one
    of "success", "pending", "failure"; and neither pass of the reduction
    turns a value that is "pending" or "failure" back into "success": from
    such a value each pass yields "pending" or "failure" again. *)
Theorem C5_verdicts_are_sticky
    (checkRuns : list GhCheckRun.t) (state : option string) :
  verdict (overallStatus (reduce checkRuns state))
  /\ verdict (overallConclusion (reduce checkRuns state))
  /\ (forall v : Overall,
        raised (overallStatus v) ->
        raised (overallStatus (checkRunPass checkRuns v))
        /\ raised (overallStatus (commitStatusPass state v))
        /\ raised (overallStatus
                     (commitStatusPass state (checkRunPass checkRuns v))))
  /\ (forall v : Overall,
        raised (overallConclusion v) ->
        raised (overallConclusion (checkRunPass checkRuns v))
        /\ raised (overallConclusion (commitStatusPass state v))
        /\ raised (overallConclusion
                     (commitStatusPass state (checkRunPass checkRuns v)))).
Proof.
  assert (Hstep : forall (f : Overall -> Overall),
             (forall v, f v = failure \/ f v = pending \/ f v = v) ->
             forall v,
               (raised (overallStatus v) -> raised (overallStatus (f v)))
               /\ (raised (overallConclusion v) ->
                   raised (overallConclusion (f v)))).
  { intros f Hf v.
    destruct (Hf v) as [-> | [-> | ->]]; unfold raised; simpl; auto. }
  pose proof (Hstep _ (checkRunPass_cases checkRuns)) as Hc.
  pose proof (Hstep _ (commitStatusPass_cases state)) as Hs.
  repeat split.
  - destruct (reduce_cases checkRuns state) as [-> | [-> | ->]];
      unfold verdict; simpl; auto.
  - destruct (reduce_cases checkRuns state) as [-> | [-> | ->]];
      unfold verdict; simpl; auto.
  - now apply Hc.
  - now apply Hs.
  - now apply Hs, Hc.
  - now apply Hc.
  - now apply Hs.
  - now apply Hs, Hc.
Qed.

Lemma C5_verdicts_are_sticky_witness :
  raised (overallStatus failure)
  /\ raised (overallStatus
               (commitStatusPass (Some "success")
                  (checkRunPass [Samples.greenRun 1] failure))).
Proof.
  split.
  - right. reflexivity.
  - apply (C5_verdicts_are_sticky [Samples.greenRun 1] (Some "success")).
    right. reflexivity.
Defined.

(** C6. For every list of check-runs holding at least one run whose
    conclusion is "failure", "cancelled" or "timed_out", and every combined
    state other than "pending", the reduction yields
    overallConclusion = "failure". *)
Theorem C6_failed_run_yields_failure
    (checkRuns : list GhCheckRun.t) (state : option string) :
  (exists run, In run checkRuns /\ failed run) ->
  state <> Some "pending" ->
  overallConclusion (reduce checkRuns state) = "failure".
Proof.
  intros Hfail Hstate. unfold reduce.
  rewrite (checkRunPass_failure checkRuns initial Hfail).
  unfold commitStatusPass.
  apply strict_eq_false in Hstate. rewrite Hstate.
  destruct (strict_eq state "failure" || strict_eq state "error");
    reflexivity.
Qed.

Lemma C6_failed_run_yields_failure_witness :
  (exists run, In run [Samples.busyRun; Samples.redRun] /\ failed run)
  /\ Some "success" <> Some "pending"
  /\ overallConclusion
       (reduce [Samples.busyRun; Samples.redRun] (Some "success"))
     = "failure".
Proof.
  assert (H : exists run,
             In run [Samples.busyRun; Samples.redRun] /\ failed run).
  { exists Samples.redRun. split; [right; left; reflexivity|].
    left. reflexivity. }
  split; [exact H|]. split; [discriminate|].
  apply (C6_failed_run_yields_failure _ _ H). discriminate.
Defined.

(** C3 fails as worded: with one failed run next to the run in progress and
    a "success" combined state, the first pass takes its failure branch and
    overallStatus is "failure". *)
Lemma C3_counterexample :
  ~ running_yields_pending [Samples.redRun; Samples.busyRun] (Some "success").
Proof.
  unfold running_yields_pending. intros H.
  assert (Hrun : exists run,
             In run [Samples.redRun; Samples.busyRun] /\ running run).
  { exists Samples.busyRun. split; [right; left; reflexivity|].
    right. reflexivity. }
  specialize (H Hrun (or_introl eq_refl)).
  vm_compute in H. discriminate H.
Qed.

(** C3, amended. For every list of check-runs holding at least one run
    whose status is "queued" or "in_progress" and no run whose conclusion
    is "failure", "cancelled" or "timed_out", if the combined state is
    "success" or absent, the reduction yields overallStatus = "pending". *)
Theorem C3_running_without_failure_yields_pending
    (checkRuns : list GhCheckRun.t) (state : option string) :
  (exists run, In run checkRuns /\ running run) ->
  (forall run, In run checkRuns -> ~ failed run) ->
  state = Some "success" \/ state = None ->
  overallStatus (reduce checkRuns state) = "pending".
Proof.
  intros Hrun Hnone Hstate. unfold reduce.
  rewrite (checkRunPass_pending checkRuns initial Hrun Hnone).
  destruct Hstate as [-> | ->]; reflexivity.
Qed.

Lemma C3_running_without_failure_yields_pending_witness :
  overallStatus (reduce [Samples.greenRun 1; Samples.busyRun] None)
  = "pending".
Proof.
  apply C3_running_without_failure_yields_pending.
  - exists Samples.busyRun. split; [right; left; reflexivity|].
    right. reflexivity.
  - intros run [<- | [<- | []]] [H | [H | H]]; discriminate H.
  - right. reflexivity.
Defined.

End ReductionProps.

(** ** Properties of the handler *)

Module HandlerProps.

Import Aggregator Spec.

(** The three kinds of response, by the first call that decides. *)
Lemma GET_cases (w : World) (p : Params) :
  (exists a, getAuth w = Returned a /\ session a = None
             /\ GET w p = mkResponse 401 NoBody)
  \/ (Failure w p /\ exists e, GET w p = catchBlock w e)
  \/ (exists d, Delivered w p d /\ GET w p = mkResponse 200 (SuccessBody d)).
Proof.
  unfold GET, tryBlock, bind.
  destruct (getAuth w) as [a|e] eqn:Ha;
    [|right; left; split; [eapply AuthFailed; eauto | eauto]].
  destruct (session a) as [sn|] eqn:Hs; [|left; eauto].
  destruct (getToken w (user a) (owner p) (repo p)) as [tok|e] eqn:Ht;
    [| right; left; split; [eapply TokenFailed; eauto | eauto]].
  destruct (truthy tok) eqn:Htok; simpl negb; cbv iota;
    [| right; left; split; [eapply TokenMissing; eauto | eauto]].
  destruct tok as [token|]; [|discriminate Htok].
  destruct (decodeURIComponent w (branch p)) as [ref|e] eqn:Hd;
    [|right; left; split; [eapply BranchMalformed; eauto | eauto]].
  destruct (getBranch w token (owner p) (repo p) ref) as [sha|e] eqn:Hb;
    [|right; left; split; [eapply BranchNotFound; eauto | eauto]].
  destruct (listForRef w token (owner p) (repo p) sha 100) as [checks|e] eqn:Hl;
    [|right; left; split; [eapply ChecksFailed; eauto | eauto]].
  destruct (getCombinedStatusForRef w token (owner p) (repo p) sha)
    as [combined|e] eqn:Hc;
    [|right; left; split; [eapply StatusFailed; eauto | eauto]].
  right; right. eexists. split; [|reflexivity].
  econstructor; eauto.
Qed.

Lemma catchBlock_envelope (w : World) (e : JsError) :
  errorEnvelope w (catchBlock w e).
Proof.
  unfold errorEnvelope, catchBlock. simpl.
  repeat split; eauto.
  - destruct (strict_eq (NODE_ENV w) "development"), (stack e);
      simpl; intuition discriminate.
  - destruct (strict_eq (NODE_ENV w) "development") eqn:Hdev.
    + intros _. now apply strict_eq_true.
    + simpl. intuition discriminate.
Qed.

Lemma GET_success_inv (w : World) (p : Params) (d : BuildStatusData.t) :
  body (GET w p) = SuccessBody d ->
  Delivered w p d /\ GET w p = mkResponse 200 (SuccessBody d).
Proof.
  intros H.
  destruct (GET_cases w p)
    as [(a & _ & _ & Hr) | [(_ & e & Hr) | (d' & Hd & Hr)]];
    rewrite Hr in H; simpl in H; try discriminate H.
  injection H as <-. split; [exact Hd | exact Hr].
Qed.

Ltac run_calls :=
  unfold GET, tryBlock, bind;
  repeat (match goal with
          | H : _ = _ |- _ => rewrite H; clear H
          end; cbn [negb]; cbv beta iota).

Lemma GET_failure (w : World) (p : Params) :
  Failure w p -> exists e, GET w p = catchBlock w e.
Proof.
  intros []; run_calls; eauto.
Qed.

(** C10. In every success response the two reduced fields agree:
    overallStatus = overallConclusion. *)
Theorem C10_status_equals_conclusion
    (w : World) (p : Params) (d : BuildStatusData.t) :
  body (GET w p) = SuccessBody d ->
  BuildStatusData.overallStatus d = BuildStatusData.overallConclusion d.
Proof.
  intros H. apply GET_success_inv in H.
  destruct H as ([a sn token ref sha checks combined _ _ _ _ _ _ _ _ ->] & _).
  unfold buildData. simpl.
  destruct (ReductionProps.reduce_cases (GhChecks.check_runs checks)
              (GhCombined.state combined)) as [-> | [-> | ->]];
    reflexivity.
Qed.

Lemma C10_status_equals_conclusion_witness :
  BuildStatusData.overallStatus
    (buildData "abc123" (GhChecks.mk 2 [Samples.redRun; Samples.busyRun])
       (GhCombined.mk (Some "pending") []))
  = BuildStatusData.overallConclusion
      (buildData "abc123" (GhChecks.mk 2 [Samples.redRun; Samples.busyRun])
         (GhCombined.mk (Some "pending") [])).
Proof.
  apply (C10_status_equals_conclusion
           (Samples.world (GhChecks.mk 2 [Samples.redRun; Samples.busyRun])
              (GhCombined.mk (Some "pending") []))
           Samples.params).
  reflexivity.
Defined.

(** C2 fails as worded: for a commit with 101 check-runs the listing
    delivers a first page of 100 runs and total_count = 101, so the
    response carries 100 check-runs, no commit status, and
    totalCount = 101. *)
Lemma C2_counterexample :
  ~ (forall d,
       body (GET (Samples.world Samples.fullPage
                    (GhCombined.mk (Some "success") []))
               Samples.params)
       = SuccessBody d ->
       countsItsLists d).
Proof.
  intros H.
  specialize (H _ eq_refl).
  vm_compute in H. discriminate H.
Qed.

(** C2, amended. In every success response, totalCount is the total_count
    reported by the check-run listing plus the number of entries of the
    returned commitStatuses list, and the returned checkRuns list has one
    entry per check-run of the fetched page; so totalCount is the sum of
    the two list lengths whenever the reported total_count is the number
    of runs on that page. *)
Theorem C2_totalCount_adds_reported_total
    (w : World) (p : Params) (d : BuildStatusData.t) :
  body (GET w p) = SuccessBody d ->
  exists token sha checks,
    listForRef w token (owner p) (repo p) sha 100 = Returned checks
    /\ length (BuildStatusData.checkRuns d)
       = length (GhChecks.check_runs checks)
    /\ BuildStatusData.totalCount d
       = GhChecks.total_count checks
         + Z.of_nat (length (BuildStatusData.commitStatuses d))
    /\ (GhChecks.total_count checks
        = Z.of_nat (length (GhChecks.check_runs checks)) ->
        countsItsLists d).
Proof.
  intros H. apply GET_success_inv in H.
  destruct H as ([a sn token ref sha checks combined _ _ _ _ _ _ Hl _ ->] & _).
  exists token, sha, checks.
  unfold countsItsLists, buildData. simpl.
  rewrite !length_map.
  repeat split; auto.
  intros ->. reflexivity.
Qed.

Lemma C2_totalCount_adds_reported_total_witness :
  exists token sha checks,
    listForRef (Samples.world Samples.fullPage (GhCombined.mk None []))
      token "o" "r" sha 100 = Returned checks
    /\ length (map normalizeRun (GhChecks.check_runs Samples.fullPage))
       = length (GhChecks.check_runs checks)
    /\ 101 = GhChecks.total_count checks + Z.of_nat 0
    /\ (GhChecks.total_count checks
        = Z.of_nat (length (GhChecks.check_runs checks)) ->
        countsItsLists
          (buildData "abc123" Samples.fullPage (GhCombined.mk None []))).
Proof.
  apply (C2_totalCount_adds_reported_total
           (Samples.world Samples.fullPage (GhCombined.mk None []))
           Samples.params
           (buildData "abc123" Samples.fullPage (GhCombined.mk None []))).
  reflexivity.
Defined.

(** C7. Without a session the endpoint answers HTTP 401 with an empty
    body.  On every other failure (the session store, the token store, the
    decoder or one of the three upstream calls throws, or the stored token
    is null or empty) it answers HTTP 500 with the body
    [{status: "error", message, details?}], which has no data property and
    carries details only when NODE_ENV is "development".  A success body
    comes with HTTP 200 and only when every call returned, and every
    response is of one of these three kinds. *)
Theorem C7_failures_answer_with_the_envelope (w : World) (p : Params) :
  (forall a,
     getAuth w = Returned a -> session a = None ->
     GET w p = mkResponse 401 NoBody /\ jsonKeys (body (GET w p)) = [])
  /\ (Failure w p -> errorEnvelope w (GET w p))
  /\ (forall d,
        body (GET w p) = SuccessBody d ->
        httpStatus (GET w p) = 200 /\ Delivered w p d /\ ~ Failure w p)
  /\ ((exists a, getAuth w = Returned a /\ session a = None)
      \/ Failure w p
      \/ exists d, Delivered w p d).
Proof.
  split; [|split; [|split]].
  - intros a Ha Hs.
    assert (Hr : GET w p = mkResponse 401 NoBody) by (run_calls; reflexivity).
    rewrite Hr. split; reflexivity.
  - intros Hf. destruct (GET_failure w p Hf) as (e & ->).
    apply catchBlock_envelope.
  - intros d H. destruct (GET_success_inv w p d H) as (Hd & Hr).
    rewrite Hr. repeat split; auto.
    intros Hf. destruct (GET_failure w p Hf) as (e & He).
    rewrite He in Hr. discriminate Hr.
  - destruct (GET_cases w p)
      as [(a & Ha & Hs & _) | [(Hf & _) | (d & Hd & _)]]; eauto.
Qed.

Lemma C7_failures_answer_with_the_envelope_witness :
  Failure Samples.lostBranch Samples.params
  /\ errorEnvelope Samples.lostBranch
       (GET Samples.lostBranch Samples.params).
Proof.
  assert (H : Failure Samples.lostBranch Samples.params).
  { eapply BranchNotFound; reflexivity. }
  split; [exact H|].
  apply (C7_failures_answer_with_the_envelope Samples.lostBranch
           Samples.params).
  exact H.
Defined.

End HandlerProps.

(** ** Properties of the poller's failure counter *)

Module PollingProps.

Import Poller Spec.

(** The guard at the head of [fetchStatus]. *)
Lemma fetchStatus_guard (u : bool) (r : FetchResult) (s : State) :
  3 <= failures s -> fetchStatus u r s = (s, false).
Proof.
  intros H. unfold fetchStatus.
  replace (3 <=? failures s) with true; [reflexivity|].
  symmetry. now apply Z.leb_le.
Qed.

(** One call that nothing interleaves with is its two halves in a row. *)
Lemma fetchStatus_splits (u : bool) (r : FetchResult) (s : State) :
  fetchStatus u r s
  = if snd (issue s)
    then (settle r (if u then cleanup (fst (issue s)) else fst (issue s)),
          true)
    else (s, false).
Proof.
  unfold fetchStatus, issue, settle.
  destruct (3 <=? failures s); [reflexivity|]. simpl.
  destruct (afterFetch r _) as (s4, thrown). reflexivity.
Qed.

Lemma issue_guard (s : State) : 3 <= failures s -> issue s = (s, false).
Proof.
  intros H. unfold issue.
  replace (3 <=? failures s) with true; [reflexivity|].
  symmetry. now apply Z.leb_le.
Qed.

(** A settling request that is outside the 2xx range writes the sentinel,
    whatever the counter was and whether or not the component is still
    mounted. *)
Lemma settle_not_ok (httpStatus : Z) (json : Json) (s : State) :
  ok httpStatus = false ->
  failures (settle (Responded httpStatus json) s) = stop.
Proof.
  intros Hok. unfold settle, afterFetch. rewrite Hok. simpl negb. cbv iota.
  unfold onError, onSettled.
  destruct s as [bs ld er fl im cb]. destruct im; reflexivity.
Qed.

(** A settling 2xx payload not marked success, read while mounted, counts
    one failure. *)
Lemma settle_soft_error (httpStatus : Z) (payload : Payload) (s : State) :
  isMounted s = true -> ok httpStatus = true ->
  status payload <> Some "success" ->
  failures (settle (Responded httpStatus (Parsed payload)) s)
  = Z.min (failures s + 1) 999.
Proof.
  intros Hm Hok Hst. unfold settle, afterFetch. rewrite Hok. simpl negb.
  cbv iota. apply strict_eq_false in Hst. rewrite Hst. simpl andb. cbv iota.
  unfold onError, onSettled.
  destruct s as [bs ld er fl im cb]. simpl in Hm. subst im.
  destruct (js_or (message payload) (Some "Failed to fetch build status"))
    eqn:Hmsg; [reflexivity|].
  unfold js_or in Hmsg.
  destruct (message payload) as [m|]; [|discriminate Hmsg].
  simpl in Hmsg. destruct (negb (String.eqb m "")); discriminate Hmsg.
Qed.

(** Without a success payload a settling request leaves the counter at or
    above the threshold. *)
Lemma settle_keeps_threshold (r : FetchResult) (s : State) :
  3 <= failures s ->
  (forall httpStatus payload,
     r = Responded httpStatus (Parsed payload) ->
     ok httpStatus = true -> status payload <> Some "success") ->
  3 <= failures (settle r s).
Proof.
  intros Hge Hr. unfold settle, afterFetch, onError, onSettled, stop.
  destruct s as [bs ld er fl im cb]. simpl in Hge.
  destruct r as [reason | httpStatus [reason | payload]].
  - destruct im; simpl; lia.
  - destruct (ok httpStatus), im; simpl; lia.
  - destruct (ok httpStatus) eqn:Hok; simpl.
    + specialize (Hr httpStatus payload eq_refl Hok).
      apply strict_eq_false in Hr. rewrite Hr. simpl.
      destruct (js_or (message payload)
                  (Some "Failed to fetch build status")), im; simpl; lia.
    + destruct im; simpl; lia.
Qed.

Lemma silent_app (log1 log2 : list bool) :
  silent log1 -> silent log2 -> silent (log1 ++ log2).
Proof.
  unfold silent. intros H1 H2. apply Forall_app. split; assumption.
Qed.

(** At or above the threshold, an event that is not a success payload
    issues no request and leaves the counter there. *)
Lemma frozen_step (e : Event) (m : Machine) :
  3 <= failures (current m) ->
  (forall httpStatus payload,
     e = Settled (Responded httpStatus (Parsed payload)) ->
     ok httpStatus = true -> status payload <> Some "success") ->
  silent (snd (step e m)) /\ 3 <= failures (current (fst (step e m))).
Proof.
  intros Hge He. destruct e as [|r|]; simpl.
  - destruct (isMounted (current m)); [|split; [constructor | exact Hge]].
    rewrite (issue_guard _ Hge). simpl.
    split; [repeat constructor | exact Hge].
  - destruct (inFlight m) as [|n]; simpl; [split; [constructor | exact Hge]|].
    split; [constructor|].
    apply settle_keeps_threshold; [exact Hge|].
    intros httpStatus payload ->. now apply He.
  - split; [constructor | exact Hge].
Qed.

Lemma frozen_run (events : list Event) (m : Machine) :
  3 <= failures (current m) -> unanswered events ->
  silent (snd (run events m)) /\ 3 <= failures (current (fst (run events m))).
Proof.
  revert m. induction events as [|e rest IH]; intros m Hge Hun; simpl.
  - split; [constructor | exact Hge].
  - inversion Hun as [|e' rest' He Hrest]; subst.
    destruct (frozen_step e m Hge He) as (Hlog1 & Hge1).
    destruct (step e m) as (m1, log1). simpl in Hlog1, Hge1.
    destruct (IH m1 Hge1 Hrest) as (Hlog2 & Hge2).
    destruct (run rest m1) as (m2, log2). simpl in *.
    split; [now apply silent_app | exact Hge2].
Qed.

(** At or above the threshold with no request in flight nothing moves the
    counter any more. *)
Lemma idle_run (events : list Event) (m : Machine) :
  3 <= failures (current m) -> inFlight m = 0%nat ->
  silent (snd (run events m))
  /\ failures (current (fst (run events m))) = failures (current m)
  /\ inFlight (fst (run events m)) = 0%nat.
Proof.
  revert m. induction events as [|e rest IH]; intros m Hge Hidle; simpl.
  - split; [constructor | split; [reflexivity | exact Hidle]].
  - assert (Hstep : silent (snd (step e m))
                    /\ failures (current (fst (step e m)))
                       = failures (current m)
                    /\ inFlight (fst (step e m)) = 0%nat).
    { destruct e as [|r|]; simpl.
      - destruct (isMounted (current m));
          [|split; [constructor | split; [reflexivity | exact Hidle]]].
        rewrite (issue_guard _ Hge). simpl.
        split; [repeat constructor | split; [reflexivity | exact Hidle]].
      - rewrite Hidle. simpl.
        split; [constructor | split; [reflexivity | exact Hidle]].
      - split; [constructor | split; [reflexivity | exact Hidle]]. }
    destruct Hstep as (Hlog1 & Hf1 & Hidle1).
    destruct (step e m) as (m1, log1). simpl in Hlog1, Hf1, Hidle1.
    destruct (IH m1 ltac:(lia) Hidle1) as (Hlog2 & Hf2 & Hidle2).
    destruct (run rest m1) as (m2, log2). simpl in *.
    split; [now apply silent_app | split; [lia | exact Hidle2]].
Qed.

Lemma stop_suspends (m : Machine) : failures (current m) = stop -> suspended m.
Proof.
  intros H.
  assert (Hge : 3 <= failures (current m)) by (rewrite H; unfold stop; lia).
  split; [exact H|]. split.
  - intros events Hun. now apply frozen_run.
  - intros Hidle events. now apply idle_run.
Qed.

(** A response outside the 2xx range writes the sentinel, whether or not
    the component is still mounted when it arrives. *)
Lemma not_ok_writes_stop
    (u : bool) (httpStatus : Z) (json : Json) (s : State) :
  failures s < 3 -> ok httpStatus = false ->
  failures (fst (fetchStatus u (Responded httpStatus json) s)) = stop.
Proof.
  intros Hlt Hok. unfold fetchStatus.
  replace (3 <=? failures s) with false
    by (symmetry; apply Z.leb_gt; exact Hlt).
  unfold afterFetch. rewrite Hok. simpl negb. cbv iota.
  unfold onError, onSettled.
  destruct s as [bs ld er fl im cb].
  destruct u, cb, im; reflexivity.
Qed.

(** A payload not marked success, read while mounted, counts one failure. *)
Lemma soft_error_counts_one
    (httpStatus : Z) (payload : Payload) (s : State) :
  failures s < 3 -> isMounted s = true -> ok httpStatus = true ->
  status payload <> Some "success" ->
  failures (fst (fetchStatus false (Responded httpStatus (Parsed payload)) s))
  = Z.min (failures s + 1) 999.
Proof.
  intros Hlt Hm Hok Hst. unfold fetchStatus.
  replace (3 <=? failures s) with false
    by (symmetry; apply Z.leb_gt; exact Hlt).
  unfold afterFetch. rewrite Hok. simpl negb. cbv iota.
  apply strict_eq_false in Hst. rewrite Hst. simpl andb. cbv iota.
  unfold onError, onSettled.
  destruct s as [bs ld er fl im cb]. simpl in Hm. subst im.
  destruct (js_or (message payload) (Some "Failed to fetch build status"))
    eqn:Hmsg.
  - destruct cb; reflexivity.
  - unfold js_or in Hmsg.
    destruct (message payload) as [m|]; [|discriminate Hmsg].
    simpl in Hmsg. destruct (negb (String.eqb m "")); discriminate Hmsg.
Qed.

(** C4 fails as worded: on a fresh mount the first request settles with a
    2xx response whose payload is marked "error"; the counter is then 1,
    not the sentinel 999, and the next tick issues a request. *)
Lemma C4_counterexample :
  ~ stopsAtOnce Samples.softError (fst (run [Tick] fresh))
  /\ failures (after [Tick; Settled Samples.softError]) = 1
  /\ snd (run [Tick] (fst (run [Tick; Settled Samples.softError] fresh)))
     = [true].
Proof.
  split; [|split; reflexivity].
  unfold stopsAtOnce. intros H.
  assert (Hin : inFlight (fst (run [Tick] fresh)) <> 0%nat)
    by (simpl; discriminate).
  destruct (H Hin eq_refl) as (Hstop & _).
  vm_compute in Hstop. discriminate Hstop.
Qed.

(** C4, amended. A request that settles with a response outside the 2xx
    range immediately sets the failure counter to the sentinel 999; from
    then on no scheduled attempt of the mount performs a request as long
    as no request that was still in flight delivers a success payload, so
    none ever does when no other request is in flight.  A 2xx response
    whose JSON payload is not marked "success", read while the component
    is mounted, adds one to the counter (capped at 999) instead; and while
    the counter is 3 or more a scheduled attempt performs no request and
    changes nothing. *)
Theorem C4_failed_fetch_and_the_counter :
  (forall httpStatus json m,
     inFlight m <> 0%nat -> ok httpStatus = false ->
     suspended (fst (step (Settled (Responded httpStatus json)) m)))
  /\ (forall httpStatus payload s,
        isMounted s = true -> ok httpStatus = true ->
        status payload <> Some "success" ->
        failures (settle (Responded httpStatus (Parsed payload)) s)
        = Z.min (failures s + 1) 999)
  /\ (forall m,
        3 <= failures (current m) ->
        silent (snd (step Tick m)) /\ fst (step Tick m) = m).
Proof.
  split; [|split].
  - intros httpStatus json m Hin Hok.
    apply stop_suspends. simpl.
    destruct (inFlight m) as [|n]; [contradiction|]. simpl.
    now apply settle_not_ok.
  - intros httpStatus payload s. apply settle_soft_error.
  - intros m Hge. simpl.
    destruct (isMounted (current m)); [|split; [constructor | reflexivity]].
    rewrite (issue_guard _ Hge). simpl.
    split; [repeat constructor | destruct m; reflexivity].
Qed.

Lemma C4_failed_fetch_and_the_counter_witness :
  inFlight (fst (run [Tick] fresh)) <> 0%nat /\ ok 500 = false
  /\ suspended
       (fst (step (Settled Samples.serverError) (fst (run [Tick] fresh)))).
Proof.
  split; [simpl; discriminate|]. split; [reflexivity|].
  apply C4_failed_fetch_and_the_counter; [simpl; discriminate | reflexivity].
Defined.

End PollingProps.

(** ** Properties of the rendering *)

Module RenderProps.

Import Poller Spec.

Section WithClock.

Variable getTime : string -> Z.



End WithClock.




Section MostRecent.

Variable getTime : string -> Z.






End MostRecent.



End RenderProps.

(** ** The scenarios of the specification, evaluated *)

Module Scenarios.

Import Aggregator Poller.

(** Three green check-runs and one green commit status. *)
Example scenario_A :
  Samples.verdictOf
    (Samples.responseOf
       (GhChecks.mk 3 (map Samples.greenRun (seq 1 3)))
       (GhCombined.mk (Some "success") [Samples.successStatus]))
  = Some ("success", "success", 4).
Proof. reflexivity. Qed.

(** One failed run and one run in progress. *)
Example scenario_B :
  Samples.verdictOf
    (Samples.responseOf
       (GhChecks.mk 2 [Samples.redRun; Samples.busyRun])
       (GhCombined.mk (Some "success") []))
  = Some ("failure", "failure", 2).
Proof. reflexivity. Qed.

(** Green check-runs under a pending commit status. *)
Example scenario_C :
  Samples.verdictOf
    (Samples.responseOf
       (GhChecks.mk 2 (map Samples.greenRun (seq 1 2)))
       (GhCombined.mk (Some "pending") []))
  = Some ("pending", "pending", 2).
Proof. reflexivity. Qed.

(** Branch not found, production posture: no details. *)
Example scenario_D :
  GET Samples.lostBranch Samples.params
  = mkResponse 500 (ErrorBody "Branch not found" None).
Proof. reflexivity. Qed.

(** A non-2xx answer on a fresh mount: the counter holds the sentinel and
    the following two ticks perform no request. *)
Example scenario_E :
  let '(m, log) :=
    run [Tick; Settled Samples.serverError; Tick; Tick] fresh in
  (failures (current m), log, error (current m))
  = (999, [true; false; false],
     Some "Failed to fetch build status: 500").
Proof. reflexivity. Qed.

(** Three payloads not marked success in a row reach the threshold. *)
Example three_soft_errors :
  let soft := Settled Samples.softError in
  let '(m, log) :=
    run [Tick; soft; Tick; soft; Tick; soft; Tick; Tick] fresh in
  (failures (current m), log) = (3, [true; true; true; false; false]).
Proof. reflexivity. Qed.

(** Two requests in flight: the later one is answered with HTTP 500, then
    the earlier one delivers a result; the counter is back at 0 and the
    next tick fetches again. *)
Example overlapping_success_resumes :
  let '(m, log) :=
    run [Tick; Tick; Settled Samples.serverError;
         Settled (Samples.delivered Samples.emptyResult); Tick] fresh in
  (failures (current m), log) = (0, [true; true; true]).
Proof. reflexivity. Qed.

(** Two requests issued at counter 2 and both rejected leave it at 4. *)
Example overlapping_rejections_pass_the_threshold :
  let soft := Settled Samples.softError in
  let '(m, log) :=
    run [Tick; soft; Tick; soft; Tick; Tick;
         Settled (Rejected "timeout"); Settled (Rejected "timeout")] fresh in
  (failures (current m), log) = (4, [true; true; true; true]).
Proof. reflexivity. Qed.

End Scenarios.

(** ** Further properties of the reduction *)

Module ReductionMore.

Import Aggregator Spec.

Lemma existsb_Permutation {A : Type} (f : A -> bool) (l l' : list A) :
  Permutation l l' -> existsb f l = existsb f l'.
Proof.
  induction 1 as [|x l l' _ IH|x y l|l l' l'' _ IH1 _ IH2]; simpl.
  - reflexivity.
  - now rewrite IH.
  - destruct (f x), (f y); reflexivity.
  - now rewrite IH1.
Qed.

(** The length test of line 57 decides nothing: an empty list has neither
    a failed nor a running run. *)
Lemma checkRunPass_flat (checkRuns : list GhCheckRun.t) (v : Overall) :
  checkRunPass checkRuns v
  = if hasFailure checkRuns then failure
    else if hasPending checkRuns then pending
    else v.
Proof.
  unfold checkRunPass. destruct checkRuns as [|run l]; [reflexivity|].
  replace (0 <? Z.of_nat (length (run :: l))) with true; [reflexivity|].
  symmetry. apply Z.ltb_lt. simpl length. lia.
Qed.

(** The reduction as one decision list, the commit status first. *)
Lemma reduce_table (checkRuns : list GhCheckRun.t) (state : option string) :
  reduce checkRuns state
  = if strict_eq state "pending" then pending
    else if strict_eq state "failure" || strict_eq state "error" then failure
    else if hasFailure checkRuns then failure
    else if hasPending checkRuns then pending
    else initial.
Proof.
  unfold reduce, commitStatusPass. rewrite checkRunPass_flat. reflexivity.
Qed.

Lemma hasFailure_false (checkRuns : list GhCheckRun.t) :
  hasFailure checkRuns = false
  <-> forall run, In run checkRuns -> ~ failed run.
Proof.
  split.
  - intros H run Hin Hf.
    assert (hasFailure checkRuns = true)
      by (apply ReductionProps.hasFailure_iff; eauto).
    congruence.
  - intros H. destruct (hasFailure checkRuns) eqn:Hf; [|reflexivity].
    apply ReductionProps.hasFailure_iff in Hf.
    destruct Hf as (run & Hin & Hfailed). destruct (H run Hin Hfailed).
Qed.

Lemma hasPending_false (checkRuns : list GhCheckRun.t) :
  hasPending checkRuns = false
  <-> forall run, In run checkRuns -> ~ running run.
Proof.
  split.
  - intros H run Hin Hr.
    assert (hasPending checkRuns = true)
      by (apply ReductionProps.hasPending_iff; eauto).
    congruence.
  - intros H. destruct (hasPending checkRuns) eqn:Hp; [|reflexivity].
    apply ReductionProps.hasPending_iff in Hp.
    destruct Hp as (run & Hin & Hrun). destruct (H run Hin Hrun).
Qed.

(** Turns the tests of [reduce_table] into the facts they decide. *)
Ltac reflect_in H lemma :=
  let H' := fresh in
  pose proof (proj1 lemma H) as H'; clear H; rename H' into H.

Ltac decide_table checkRuns state :=
  rewrite reduce_table;
  destruct (strict_eq state "pending") eqn:Hp;
  [reflect_in Hp (strict_eq_true state "pending")
  |reflect_in Hp (strict_eq_false state "pending")];
  (destruct (strict_eq state "failure") eqn:Hf;
   [reflect_in Hf (strict_eq_true state "failure")
   |reflect_in Hf (strict_eq_false state "failure")]);
  (destruct (strict_eq state "error") eqn:He;
   [reflect_in He (strict_eq_true state "error")
   |reflect_in He (strict_eq_false state "error")]);
  (destruct (hasFailure checkRuns) eqn:Hbad;
   [reflect_in Hbad (ReductionProps.hasFailure_iff checkRuns)
   |reflect_in Hbad (hasFailure_false checkRuns)]);
  (destruct (hasPending checkRuns) eqn:Hrun;
   [reflect_in Hrun (ReductionProps.hasPending_iff checkRuns)
   |reflect_in Hrun (hasPending_false checkRuns)]);
  simpl.

(** Runs that neither failed nor are running, under a clean combined
    state, leave the initial verdict. *)
Lemma reduce_clean (checkRuns : list GhCheckRun.t) (state : option string) :
  (forall run, In run checkRuns -> ~ failed run /\ ~ running run) ->
  state = Some "success" \/ state = None ->
  reduce checkRuns state = initial.
Proof.
  intros Hall Hstate. rewrite reduce_table.
  replace (hasFailure checkRuns) with false
    by (symmetry; apply hasFailure_false; intros run Hin; apply Hall, Hin).
  replace (hasPending checkRuns) with false
    by (symmetry; apply hasPending_false; intros run Hin; apply Hall, Hin).
  destruct Hstate as [-> | ->]; reflexivity.
Qed.

(** X1. The verdict does not depend on the order in which the upstream
    lists the check-runs. *)
Theorem reduce_order_irrelevant
    (checkRuns checkRuns' : list GhCheckRun.t) (state : option string) :
  Permutation checkRuns checkRuns' ->
  reduce checkRuns state = reduce checkRuns' state.
Proof.
  intros H. rewrite !reduce_table. unfold hasFailure, hasPending.
  rewrite (existsb_Permutation failing _ _ H),
    (existsb_Permutation unfinished _ _ H).
  reflexivity.
Qed.

Lemma reduce_order_irrelevant_witness :
  reduce [Samples.busyRun; Samples.redRun] None
  = reduce [Samples.redRun; Samples.busyRun] None.
Proof.
  apply reduce_order_irrelevant. apply perm_swap.
Defined.

(** X2. The overall status is "success" exactly when no check-run has
    failed, none is queued or in progress, and the combined state is none
    of "pending", "failure", "error". *)
Theorem success_iff (checkRuns : list GhCheckRun.t) (state : option string) :
  overallStatus (reduce checkRuns state) = "success"
  <-> (forall run, In run checkRuns -> ~ failed run /\ ~ running run)
      /\ state <> Some "pending"
      /\ state <> Some "failure"
      /\ state <> Some "error".
Proof.
  decide_table checkRuns state;
    (split;
     [ intros H;
       first [ discriminate H
             | split; [intros run Hin; split; eauto | auto] ]
     | intros (Hall & H1 & H2 & H3); try congruence;
       try reflexivity ]).
  all: try (destruct Hbad as (run & Hin & Hfl);
            destruct (Hall run Hin) as (Hnf & _); destruct (Hnf Hfl)).
  all: try (destruct Hrun as (run & Hin & Hrn);
            destruct (Hall run Hin) as (_ & Hnr); destruct (Hnr Hrn)).
Qed.

(** X3. The overall conclusion is "failure" exactly when the combined
    state is "failure" or "error", or some check-run has failed while the
    combined state is not "pending". *)
Theorem failure_iff (checkRuns : list GhCheckRun.t) (state : option string) :
  overallConclusion (reduce checkRuns state) = "failure"
  <-> state = Some "failure"
      \/ state = Some "error"
      \/ (state <> Some "pending"
          /\ exists run, In run checkRuns /\ failed run).
Proof.
  decide_table checkRuns state;
    (split;
     [ intros H; try discriminate H; auto
     | intros [H | [H | (H & Hex)]]; try congruence; try reflexivity ]).
  all: try (destruct Hex as (run & Hin & Hfl); destruct (Hbad run Hin Hfl)).
Qed.

(** X4. The overall status is "pending" exactly when the combined state is
    "pending", or it is neither "failure" nor "error" and some check-run
    is queued or in progress while none has failed. *)
Theorem pending_iff (checkRuns : list GhCheckRun.t) (state : option string) :
  overallStatus (reduce checkRuns state) = "pending"
  <-> state = Some "pending"
      \/ (state <> Some "failure" /\ state <> Some "error"
          /\ (exists run, In run checkRuns /\ running run)
          /\ forall run, In run checkRuns -> ~ failed run).
Proof.
  decide_table checkRuns state;
    (split;
     [ intros H; try discriminate H; auto
     | intros [H | (H1 & H2 & Hex & Hnone)]; try congruence;
       try reflexivity ]).
  all: try (right; repeat split; assumption).
  all: try (destruct Hbad as (run & Hin & Hfl); destruct (Hnone run Hin Hfl)).
  all: try (destruct Hex as (run & Hin & Hrn); destruct (Hrun run Hin Hrn)).
Qed.

End ReductionMore.

(** ** Further properties of the handler *)

Module HandlerMore.

Import Aggregator Spec.

Lemma normalizeRun_injective (r r' : GhCheckRun.t) :
  normalizeRun r = normalizeRun r' -> r = r'.
Proof.
  destruct r, r'. unfold normalizeRun. simpl. intros [= -> -> -> -> -> -> -> ->].
  reflexivity.
Qed.

Lemma normalizeStatus_injective (st st' : GhStatus.t) :
  normalizeStatus st = normalizeStatus st' -> st = st'.
Proof.
  destruct st, st'. unfold normalizeStatus. simpl.
  intros [= -> -> -> -> -> ->]. reflexivity.
Qed.

Lemma map_injective {A B : Type} (f : A -> B) :
  (forall x y, f x = f y -> x = y) ->
  forall l l', map f l = map f l' -> l = l'.
Proof.
  intros Hf. induction l as [|x l IH]; intros [|y l'] H; simpl in H;
    try discriminate H; [reflexivity|].
  injection H as Hxy Hl. f_equal; auto.
Qed.

(** X5. The two lists of a result determine the upstream lists they were
    built from, entry by entry and in the same order: the normalisation
    only renames fields.  In particular the ids come in upstream order. *)
Theorem normalisation_loses_nothing
    (sha sha' : string) (checks checks' : GhChecks.t)
    (combined combined' : GhCombined.t) :
  BuildStatusData.checkRuns (buildData sha checks combined)
  = BuildStatusData.checkRuns (buildData sha' checks' combined') ->
  BuildStatusData.commitStatuses (buildData sha checks combined)
  = BuildStatusData.commitStatuses (buildData sha' checks' combined') ->
  GhChecks.check_runs checks = GhChecks.check_runs checks'
  /\ GhCombined.statuses combined = GhCombined.statuses combined'
  /\ map CheckRun.id (BuildStatusData.checkRuns (buildData sha checks combined))
     = map GhCheckRun.id (GhChecks.check_runs checks)
  /\ map CommitStatus.id
       (BuildStatusData.commitStatuses (buildData sha checks combined))
     = map GhStatus.id (GhCombined.statuses combined).
Proof.
  unfold buildData. simpl. intros Hr Hs.
  apply (map_injective _ normalizeRun_injective) in Hr.
  apply (map_injective _ normalizeStatus_injective) in Hs.
  repeat split; auto; rewrite map_map; reflexivity.
Qed.

Lemma normalisation_loses_nothing_witness :
  GhChecks.check_runs (GhChecks.mk 2 [Samples.redRun; Samples.busyRun])
  = GhChecks.check_runs (GhChecks.mk 7 [Samples.redRun; Samples.busyRun]).
Proof.
  apply (normalisation_loses_nothing "a" "b"
           (GhChecks.mk 2 [Samples.redRun; Samples.busyRun])
           (GhChecks.mk 7 [Samples.redRun; Samples.busyRun])
           (GhCombined.mk None []) (GhCombined.mk (Some "success") []));
    reflexivity.
Defined.

(** X6. An error body never carries an empty message, and it always comes
    with HTTP 500: an error without a message is reported as "Unknown
    error occurred". *)
Theorem error_message_never_empty
    (w : World) (p : Params) (msg : string) (details : option string) :
  body (GET w p) = ErrorBody msg details ->
  msg <> "" /\ httpStatus (GET w p) = 500.
Proof.
  intros H.
  destruct (HandlerProps.GET_cases w p)
    as [(a & _ & _ & Hr) | [(_ & e & Hr) | (d & _ & Hr)]];
    rewrite Hr in H |- *; simpl in H; try discriminate H.
  injection H as <- _. split; [|reflexivity].
  destruct (String.eqb_spec (message e) ""); [discriminate | assumption].
Qed.

Lemma error_message_never_empty_witness :
  "Unknown error occurred" <> "".
Proof.
  apply (error_message_never_empty Samples.brokenAuth Samples.params
           "Unknown error occurred" None).
  reflexivity.
Defined.

(** X7. With a session but no usable token (the store returns null or the
    empty string) the answer is HTTP 500 with the message "Token not
    found", whatever the decoder and the upstream would have delivered;
    the stack of that error is attached in the development posture
    only. *)
Theorem missing_token_answer
    (w : World) (p : Params) (a : Auth) (sn : string)
    (token : option string) :
  getAuth w = Returned a -> session a = Some sn ->
  getToken w (user a) (owner p) (repo p) = Returned token ->
  truthy token = false ->
  GET w p
  = mkResponse 500
      (ErrorBody "Token not found"
         (if strict_eq (NODE_ENV w) "development" then newErrorStack w
          else None)).
Proof.
  intros Ha Hs Ht Hfalsy. unfold GET, tryBlock, bind.
  rewrite Ha, Hs, Ht, Hfalsy. reflexivity.
Qed.

Lemma missing_token_answer_witness :
  GET Samples.emptyToken Samples.params
  = mkResponse 500 (ErrorBody "Token not found" None).
Proof.
  exact (missing_token_answer Samples.emptyToken Samples.params
           (mkAuth (Some "u") (Some "sid")) "sid" (Some "")
           eq_refl eq_refl eq_refl eq_refl).
Defined.

End HandlerMore.

(** ** Further properties of the poller's state machine *)

Module PollingMore.

Import Poller Spec.

(** Opens one call of [fetchStatus] below the threshold, by the cases of
    the network outcome. *)
Ltac open_fetch s r Hlt :=
  unfold fetchStatus;
  replace (3 <=? failures s) with false
    by (symmetry; apply Z.leb_gt; exact Hlt);
  unfold afterFetch, onError, onSettled, cleanup, stop;
  destruct s as [bs ld er fl im cb];
  destruct r as [reason | httpStatus [reason | payload]];
  cbn [failures isMounted capturedBuildStatus buildStatus loading error
       setLoading setError setFailures setBuildStatus] in *.

Lemma request_iff_below_threshold (u : bool) (r : FetchResult) (s : State) :
  snd (fetchStatus u r s) = negb (3 <=? failures s).
Proof.
  unfold fetchStatus. destruct (3 <=? failures s); [reflexivity|].
  destruct (afterFetch r _) as (s4, thrown). reflexivity.
Qed.

Lemma settle_range (r : FetchResult) (s : State) :
  0 <= failures s <= 999 -> 0 <= failures (settle r s) <= 999.
Proof.
  intros Hf. unfold settle, afterFetch, onError, onSettled, stop.
  destruct s as [bs ld er fl im cb]. simpl in Hf.
  destruct r as [reason | httpStatus [reason | payload]].
  - destruct im; simpl; lia.
  - destruct (ok httpStatus), im; simpl; lia.
  - destruct (ok httpStatus); simpl.
    + destruct (strict_eq (status payload) "success"),
        (data payload) as [d|], im; simpl;
        try destruct (flag_set (BuildStatusData.permissionError d));
        try destruct (js_or (message payload)
                        (Some "Failed to fetch build status"));
        simpl; lia.
    + destruct im; simpl; lia.
Qed.

Lemma issue_keeps_counter (s : State) :
  failures (fst (issue s)) = failures s.
Proof.
  unfold issue. destruct (3 <=? failures s); [reflexivity|].
  destruct s as [bs ld er fl im cb]. destruct cb; reflexivity.
Qed.

(** X8. The failure counter never leaves the range 0..999: whatever the
    order in which ticks, settling requests and the cleanup follow each
    other, overlapping requests included, it stays there. *)
Theorem counter_stays_in_range (events : list Event) (m : Machine) :
  0 <= failures (current m) <= 999 ->
  0 <= failures (current (fst (run events m))) <= 999.
Proof.
  revert m. induction events as [|e rest IH]; intros m Hinv; simpl.
  - exact Hinv.
  - assert (H1 : 0 <= failures (current (fst (step e m))) <= 999).
    { destruct e as [|r|]; simpl.
      - destruct (isMounted (current m)); [|exact Hinv].
        pose proof (issue_keeps_counter (current m)) as Hk.
        destruct (issue (current m)) as (s1, requested). simpl in *. lia.
      - destruct (inFlight m); [exact Hinv|]. simpl.
        now apply settle_range.
      - exact Hinv. }
    destruct (step e m) as (m1, log1). simpl in H1.
    specialize (IH m1 H1).
    destruct (run rest m1) as (m2, log2). exact IH.
Qed.

Lemma counter_stays_in_range_witness :
  0 <= failures
         (after [Tick; Tick; Tick; Settled (Rejected "timeout");
                 Settled (Rejected "timeout"); Settled Samples.serverError;
                 Settled (Rejected "timeout")])
    <= 999.
Proof.
  apply (counter_stays_in_range _ fresh). simpl. lia.
Defined.

Lemma silent_repeat (log : list bool) :
  silent log -> log = repeat false (length log).
Proof.
  induction 1 as [|b log Hb _ IH]; simpl; [reflexivity|].
  rewrite Hb, <- IH. reflexivity.
Qed.

(** X9. Unless a request delivers a success payload, polling never resumes
    within a mount: in every sequence of events without one, overlapping
    requests included, the ticks that issue a request all come before the
    ticks that do not. *)
Theorem requests_come_first (events : list Event) (m : Machine) :
  unanswered events ->
  exists n k, snd (run events m) = (repeat true n ++ repeat false k)%list.
Proof.
  revert m. induction events as [|e rest IH]; intros m Hun.
  - exists 0%nat, 0%nat. reflexivity.
  - destruct (Z.leb_spec 3 (failures (current m))) as [Hge | Hlt].
    + exists 0%nat, (length (snd (run (e :: rest) m))).
      apply silent_repeat. now apply PollingProps.frozen_run.
    + inversion Hun as [|e' rest' He Hrest]; subst.
      simpl.
      assert (Hlog : snd (step e m) = [] \/ snd (step e m) = [true]).
      { destruct e as [|r|]; simpl; auto.
        - destruct (isMounted (current m)); [|auto].
          unfold issue.
          replace (3 <=? failures (current m)) with false
            by (symmetry; apply Z.leb_gt; exact Hlt).
          auto.
        - destruct (inFlight m); auto. }
      destruct (step e m) as (m1, log1). simpl in Hlog.
      destruct (IH m1 Hrest) as (n & k & Hrun).
      destruct (run rest m1) as (m2, log2). simpl in *.
      destruct Hlog as [-> | ->]; rewrite Hrun.
      * exists n, k. reflexivity.
      * exists (S n), k. reflexivity.
Qed.

Lemma requests_come_first_witness :
  exists n k,
    snd (run [Tick; Tick; Settled Samples.serverError; Tick;
              Settled (Rejected "timeout"); Tick] fresh)
    = (repeat true n ++ repeat false k)%list.
Proof.
  apply requests_come_first.
  repeat constructor; intros httpStatus payload H; try discriminate H.
  injection H as <- <-. intros Hok. discriminate Hok.
Defined.

(** X10. Once the cleanup has run, a request that settles changes nothing
    but, for an answer outside the 2xx range, the counter: the settled
    state is the state found, with the counter set to 999 in that one
    case and left alone in every other. *)
Theorem settled_after_cleanup_is_discarded (r : FetchResult) (s : State) :
  isMounted s = false ->
  settle r s
  = match r with
    | Responded httpStatus _ =>
        if ok httpStatus then s else setFailures stop s
    | Rejected _ => s
    end.
Proof.
  intros Hm. unfold settle, afterFetch, onError, onSettled.
  destruct s as [bs ld er fl im cb]. simpl in Hm. subst im.
  destruct r as [reason | httpStatus [reason | payload]].
  - reflexivity.
  - destruct (ok httpStatus); reflexivity.
  - destruct (ok httpStatus); simpl; [|reflexivity].
    rewrite andb_false_r.
    destruct (js_or (message payload) (Some "Failed to fetch build status"));
      reflexivity.
Qed.

Lemma settled_after_cleanup_is_discarded_witness :
  settle (Samples.delivered Samples.emptyResult) (cleanup mounted)
  = cleanup mounted.
Proof.
  apply (settled_after_cleanup_is_discarded
           (Samples.delivered Samples.emptyResult) (cleanup mounted)).
  reflexivity.
Defined.

(** X11. Only a 2xx payload marked "success" replaces the held result: a
    rejected request, an answer outside the 2xx range, a body that is not
    JSON and a payload with another status all leave it in place. *)
Theorem failed_fetch_keeps_the_result
    (u : bool) (r : FetchResult) (s : State) :
  (forall httpStatus payload,
     r = Responded httpStatus (Parsed payload) ->
     ok httpStatus = true -> status payload <> Some "success") ->
  buildStatus (fst (fetchStatus u r s)) = buildStatus s.
Proof.
  intros Hr.
  destruct (Z.leb_spec 3 (failures s)) as [Hge | Hlt].
  - rewrite PollingProps.fetchStatus_guard by exact Hge. reflexivity.
  - open_fetch s r Hlt.
    + destruct cb, u, im; reflexivity.
    + destruct (ok httpStatus), cb, u, im; reflexivity.
    + destruct (ok httpStatus) eqn:Hok; simpl.
      * specialize (Hr httpStatus payload eq_refl Hok).
        apply strict_eq_false in Hr. rewrite Hr. simpl.
        destruct (js_or (message payload)
                    (Some "Failed to fetch build status")),
          cb, u, im; reflexivity.
      * destruct cb, u, im; reflexivity.
Qed.

Lemma failed_fetch_keeps_the_result_witness :
  buildStatus
    (fst (fetchStatus false Samples.serverError
            (after [Tick; Settled (Samples.delivered Samples.emptyResult)])))
  = buildStatus
      (after [Tick; Settled (Samples.delivered Samples.emptyResult)]).
Proof.
  apply failed_fetch_keeps_the_result.
  intros httpStatus payload [= <- <-] Hok. discriminate Hok.
Defined.

(** A tick whose request is rejected before the next event, while mounted
    and below the threshold with nothing else in flight. *)
Lemma rejected_pair (reason : string) (m : Machine) :
  failures (current m) < 3 -> isMounted (current m) = true ->
  inFlight m = 0%nat ->
  let m' := fst (run [Tick; Settled (Rejected reason)] m) in
  snd (run [Tick; Settled (Rejected reason)] m) = [true]
  /\ failures (current m') = failures (current m) + 1
  /\ isMounted (current m') = true
  /\ inFlight m' = 0%nat.
Proof.
  intros Hlt Hm Hidle. destruct m as [s n]. simpl in *. subst n.
  rewrite Hm. unfold issue.
  replace (3 <=? failures s) with false
    by (symmetry; apply Z.leb_gt; exact Hlt).
  simpl. unfold settle, afterFetch, onError, onSettled.
  destruct s as [bs ld er fl im cb]. simpl in Hm, Hlt. subst im.
  destruct cb; simpl; repeat split; lia.
Qed.

Lemma frozen_pair (reason : string) (m : Machine) :
  3 <= failures (current m) -> isMounted (current m) = true ->
  inFlight m = 0%nat ->
  run [Tick; Settled (Rejected reason)] m = (m, [false]).
Proof.
  intros Hge Hm Hidle. destruct m as [s n]. simpl in *. subst n.
  rewrite Hm, (PollingProps.issue_guard _ Hge). reflexivity.
Qed.

Lemma run_app (events events' : list Event) (m : Machine) :
  run (events ++ events') m
  = let '(m1, log1) := run events m in
    let '(m2, log2) := run events' m1 in
    (m2, (log1 ++ log2)%list).
Proof.
  revert m. induction events as [|e rest IH]; intros m; simpl.
  - destruct (run events' m). reflexivity.
  - destruct (step e m) as (m1, log1). rewrite IH.
    destruct (run rest m1) as (m2, log2).
    destruct (run events' m2) as (m3, log3).
    now rewrite app_assoc.
Qed.

Lemma rejections_from (reasons : list string) (k : nat) (m : Machine) :
  (k <= 3)%nat -> failures (current m) = Z.of_nat k ->
  isMounted (current m) = true -> inFlight m = 0%nat ->
  let events :=
    flat_map (fun reason => [Tick; Settled (Rejected reason)]) reasons in
  failures (current (fst (run events m)))
  = Z.of_nat (Nat.min (k + length reasons) 3)
  /\ snd (run events m)
     = (repeat true (Nat.min (length reasons) (3 - k))
        ++ repeat false (length reasons - (3 - k)))%list.
Proof.
  revert k m.
  induction reasons as [|reason rest IH]; intros k m Hk Hf Hm Hidle.
  - simpl. replace (Nat.min (k + 0) 3) with k by lia. auto.
  - cbv zeta. simpl flat_map.
    change (Tick :: Settled (Rejected reason)
            :: flat_map (fun reason0 => [Tick; Settled (Rejected reason0)]) rest)
      with ([Tick; Settled (Rejected reason)]
            ++ flat_map (fun reason0 => [Tick; Settled (Rejected reason0)])
                 rest)%list.
    rewrite run_app.
    destruct (Nat.eq_dec k 3) as [-> | Hne].
    + rewrite (frozen_pair reason m) by (try rewrite Hf; simpl; auto; lia).
      specialize (IH 3%nat m ltac:(lia) Hf Hm Hidle). cbv zeta in IH.
      destruct IH as (IHf & IHlog).
      destruct (run (flat_map
                       (fun reason0 => [Tick; Settled (Rejected reason0)])
                       rest) m) as (m2, log2).
      simpl in *. split.
      * rewrite IHf. f_equal. lia.
      * rewrite IHlog. rewrite Nat.min_0_r, Nat.sub_0_r. reflexivity.
    + assert (Hlt : failures (current m) < 3) by lia.
      destruct (rejected_pair reason m Hlt Hm Hidle)
        as (Hlog & Hf1 & Hm1 & Hidle1).
      destruct (run [Tick; Settled (Rejected reason)] m) as (m1, log1).
      simpl in Hlog, Hf1, Hm1, Hidle1. subst log1.
      specialize (IH (S k) m1 ltac:(lia) ltac:(lia) Hm1 Hidle1).
      cbv zeta in IH. destruct IH as (IHf & IHlog).
      destruct (run (flat_map
                       (fun reason0 => [Tick; Settled (Rejected reason0)])
                       rest) m1) as (m2, log2).
      simpl in *. split.
      * rewrite IHf. f_equal. lia.
      * rewrite IHlog.
        destruct k as [|[|[|k]]]; try lia; simpl;
          rewrite ?Nat.sub_0_r; reflexivity.
Qed.

(** X12. Requests that are rejected before the next tick (a network
    error) are counted one by one: after a run of them from the start of
    the effect the counter is the length of the run capped at 3, the first
    three ticks issued a request and the later ones did not. *)
Theorem three_rejections_stop_polling (reasons : list string) :
  let events :=
    flat_map (fun reason => [Tick; Settled (Rejected reason)]) reasons in
  failures (after events) = Z.min (Z.of_nat (length reasons)) 3
  /\ snd (run events fresh)
     = (repeat true (Nat.min (length reasons) 3)
        ++ repeat false (length reasons - 3))%list.
Proof.
  cbv zeta. unfold after.
  destruct (rejections_from reasons 0 fresh) as (Hf & Hlog);
    [lia | reflexivity | reflexivity | reflexivity|].
  split.
  - rewrite Hf. simpl Nat.add. lia.
  - rewrite Hlog. reflexivity.
Qed.


(** A request that settles with a 2xx payload marked "success" and
    carrying a result, while mounted. *)
Lemma settle_success (httpStatus : Z) (msg : option string)
    (d : BuildStatusData.t) (s : State) :
  isMounted s = true -> ok httpStatus = true ->
  let s' :=
    settle (Responded httpStatus
              (Parsed (mkPayload (Some "success") (Some d) msg))) s in
  buildStatus s' = Some d
  /\ error s' = error s
  /\ loading s' = false
  /\ failures s'
     = if flag_set (BuildStatusData.permissionError d) then stop else 0.
Proof.
  intros Hm Hok. unfold settle, afterFetch. rewrite Hok.
  destruct s as [bs ld er fl im cb]. simpl in Hm. subst im.
  destruct (flag_set (BuildStatusData.permissionError d)) eqn:Hp;
    simpl; rewrite ?Hp; simpl; repeat split; reflexivity.
Qed.

(** X13. A received result whose permissionError flag is set is stored and
    ends the polling of the mount: the counter takes the sentinel, and no
    later tick issues a request as long as no request that was still in
    flight delivers a success payload, so none ever does when no other
    request is in flight. *)
Theorem permission_error_suspends (httpStatus : Z) (msg : option string)
    (d : BuildStatusData.t) (m : Machine) :
  inFlight m <> 0%nat -> isMounted (current m) = true ->
  ok httpStatus = true ->
  BuildStatusData.permissionError d = Some true ->
  let m' :=
    fst (step (Settled (Responded httpStatus
                          (Parsed (mkPayload (Some "success") (Some d) msg))))
           m) in
  buildStatus (current m') = Some d /\ suspended m'.
Proof.
  intros Hin Hm Hok Hp. cbv zeta. simpl.
  destruct (inFlight m) as [|n]; [contradiction|]. simpl.
  destruct (settle_success httpStatus msg d (current m) Hm Hok)
    as (Hb & _ & _ & Hf).
  split; [exact Hb|].
  apply PollingProps.stop_suspends. simpl. rewrite Hf, Hp. reflexivity.
Qed.

Lemma permission_error_suspends_witness :
  suspended
    (fst (step (Settled (Responded 200
                           (Parsed (mkPayload (Some "success")
                                      (Some Samples.deniedResult) None))))
            (fst (run [Tick] fresh)))).
Proof.
  apply (permission_error_suspends 200 None Samples.deniedResult
           (fst (run [Tick] fresh)));
    [simpl; discriminate | reflexivity | reflexivity | reflexivity].
Defined.



(** X15. Running the effect again (the tracked branch changed) resumes
    polling from any state, a suspended one included: the counter starts
    at 0, the first attempt performs a request, and the result and the
    error of the previous run stay on the component until that attempt. *)
Theorem effect_restart_resumes
    (branch : option string) (u : bool) (r : FetchResult) (s : State) :
  truthy branch = true ->
  exists s0,
    Display.startEffect branch s = Some s0
    /\ failures s0 = 0
    /\ isMounted s0 = true
    /\ buildStatus s0 = buildStatus s
    /\ error s0 = error s
    /\ snd (fetchStatus u r s0) = true.
Proof.
  intros Hb. unfold Display.startEffect. rewrite Hb. simpl.
  eexists. split; [reflexivity|]. repeat split.
  rewrite request_iff_below_threshold. reflexivity.
Qed.

Lemma effect_restart_resumes_witness :
  exists s0,
    Display.startEffect (Some "main")
      (after [Tick; Settled Samples.serverError]) = Some s0
    /\ failures s0 = 0
    /\ isMounted s0 = true
    /\ buildStatus s0 = buildStatus (after [Tick; Settled Samples.serverError])
    /\ error s0 = error (after [Tick; Settled Samples.serverError])
    /\ snd (fetchStatus false Samples.softError s0) = true.
Proof.
  apply effect_restart_resumes. reflexivity.
Defined.

End PollingMore.

(** ** Properties of what the badge shows *)

Module DisplayMore.

Import Poller Display.

Lemma truthy_Some (t : string) : t <> "" -> truthy (Some t) = true.
Proof.
  intros H. simpl. destruct (String.eqb_spec t ""); [contradiction|reflexivity].
Qed.

Lemma positive_quotient (x n : Z) : 0 < n -> (0 <? x / n) = (n <=? x).
Proof.
  intros Hn.
  destruct (Z.leb_spec n x) as [Hle | Hlt].
  - apply Z.ltb_lt.
    assert (1 <= x / n) by (apply Z.div_le_lower_bound; lia). lia.
  - apply Z.ltb_ge.
    assert (x / n < 1) by (apply Z.div_lt_upper_bound; lia). lia.
Qed.

Lemma append_not_empty (s t : string) : t <> "" -> (s ++ t)%string <> "".
Proof.
  intros Ht. destruct s; simpl; [exact Ht | discriminate].
Qed.

Section Clock.

Variable now : Z.
Variable getTime : string -> Z.

(** X16. A duration is shown only when both timestamps are present and
    not empty.  With s the whole seconds between them, it reads "Ss" when
    s is below 60, a clock running backwards included, and otherwise
    "Mm Rs" with M = s / 60 and R = s mod 60. *)
Theorem formatDuration_reads (startedAt completedAt : option string) :
  (truthy startedAt = false \/ truthy completedAt = false ->
   formatDuration getTime startedAt completedAt = None)
  /\ (forall a c,
        startedAt = Some a -> completedAt = Some c -> a <> "" -> c <> "" ->
        let s := (getTime c - getTime a) / 1000 in
        formatDuration getTime startedAt completedAt
        = Some (if s <? 60 then showZ s ++ "s"
                else showZ (s / 60) ++ "m " ++ showZ (s mod 60) ++ "s")).
Proof.
  split.
  - unfold formatDuration. intros [-> | ->]; simpl;
      [reflexivity | rewrite orb_true_r; reflexivity].
  - intros a c -> -> Ha Hc. cbv zeta. unfold formatDuration.
    rewrite (truthy_Some a Ha), (truthy_Some c Hc). simpl orb. cbv iota.
    set (s := (getTime c - getTime a) / 1000).
    rewrite (positive_quotient s 60) by lia.
    destruct (Z.leb_spec 60 s) as [Hge | Hlt].
    + replace (s <? 60) with false by (symmetry; apply Z.ltb_ge; lia).
      rewrite Z.rem_mod_nonneg by lia. reflexivity.
    + replace (s <? 60) with true by (symmetry; apply Z.ltb_lt; lia).
      reflexivity.
Qed.

(** X17. The age of a timestamp is shown in the largest unit that has
    fully elapsed: with d the milliseconds since the timestamp, whole days
    from 86 400 000 on, else whole hours from 3 600 000 on, else whole
    minutes from 60 000 on, else whole seconds; a timestamp in the future
    is shown with a negative number of seconds. *)
Theorem formatTimeAgo_reads (t : string) :
  t <> "" ->
  let d := now - getTime t in
  formatTimeAgo now getTime (Some t)
  = Some (if 86400000 <=? d then showZ (d / 86400000) ++ "d ago"
          else if 3600000 <=? d then showZ (d / 3600000) ++ "h ago"
          else if 60000 <=? d then showZ (d / 60000) ++ "m ago"
          else showZ (d / 1000) ++ "s ago").
Proof.
  intros Ht. cbv zeta. unfold formatTimeAgo.
  rewrite (truthy_Some t Ht). simpl negb. cbv iota.
  set (d := now - getTime t).
  rewrite !Z.div_div by lia.
  rewrite !positive_quotient by lia.
  change (1000 * (60 * (60 * 24))) with 86400000.
  change (1000 * (60 * 60)) with 3600000.
  change (1000 * 60) with 60000.
  destruct (86400000 <=? d), (3600000 <=? d), (60000 <=? d); reflexivity.
Qed.

Lemma formatTimeAgo_not_empty (t : string) :
  t <> "" ->
  exists x, formatTimeAgo now getTime (Some t) = Some x /\ x <> "".
Proof.
  intros Ht. unfold formatTimeAgo.
  rewrite (truthy_Some t Ht). simpl negb. cbv iota zeta.
  repeat match goal with
         | |- context [if ?c then _ else _] => destruct c
         end;
    eexists; (split; [reflexivity | apply append_not_empty; discriminate]).
Qed.

(** X18. Icon, colour and text of the badge always tell the same story:
    spinner, yellow and "Building..." when the overall status is
    "pending", whatever the conclusion; otherwise by the conclusion, with
    the clock, gray and "No builds" for a conclusion that is neither
    "success" nor "failure". *)
Theorem badge_parts_agree (b : BuildStatusData.t) :
  (BuildStatusData.overallStatus b = "pending"
   /\ glyph (getStatusIcon b) = Loader2
   /\ getStatusColor b = "border-yellow-600/30 bg-yellow-50 dark:bg-yellow-950/20"
   /\ getStatusText b = "Building...")
  \/ (BuildStatusData.overallStatus b <> "pending"
      /\ BuildStatusData.overallConclusion b = "success"
      /\ glyph (getStatusIcon b) = CheckCircle2
      /\ getStatusColor b = "border-green-600/30 bg-green-50 dark:bg-green-950/20"
      /\ getStatusText b = "Build passing")
  \/ (BuildStatusData.overallStatus b <> "pending"
      /\ BuildStatusData.overallConclusion b = "failure"
      /\ glyph (getStatusIcon b) = XCircle
      /\ getStatusColor b = "border-red-600/30 bg-red-50 dark:bg-red-950/20"
      /\ getStatusText b = "Build failing")
  \/ (BuildStatusData.overallStatus b <> "pending"
      /\ BuildStatusData.overallConclusion b <> "success"
      /\ BuildStatusData.overallConclusion b <> "failure"
      /\ glyph (getStatusIcon b) = Clock
      /\ getStatusColor b = "border-gray-600/30 bg-gray-50 dark:bg-gray-950/20"
      /\ getStatusText b = "No builds").
Proof.
  unfold getStatusIcon, getStatusColor, getStatusText.
  destruct (String.eqb_spec (BuildStatusData.overallStatus b) "pending")
    as [Hp | Hp]; [left; auto|].
  destruct (String.eqb_spec (BuildStatusData.overallConclusion b) "success")
    as [Hs | Hs]; [right; left; auto|].
  destruct (String.eqb_spec (BuildStatusData.overallConclusion b) "failure")
    as [Hf | Hf]; [right; right; left; auto|].
  right; right; right. auto 7.
Qed.

(** X19. The summary is on screen exactly when a result is held, no error
    is recorded, its totalCount is not 0 and its permission flag is not
    set; it is then the summary of that result, linking to the actions
    page of the repository. *)
Theorem summary_iff (owner repo : string) (s : State) (sm : Summary) :
  screen now getTime owner repo s = ShowSummary sm
  <-> exists b,
        buildStatus s = Some b
        /\ truthy (error s) = false
        /\ BuildStatusData.totalCount b <> 0
        /\ flag_set (BuildStatusData.permissionError b) = false
        /\ sm = summaryOf now getTime owner repo b.
Proof.
  unfold screen. split.
  - destruct (buildStatus s) as [b|].
    + rewrite andb_false_r, orb_false_r.
      destruct (truthy (error s)); [discriminate|].
      destruct (Z.eqb_spec (BuildStatusData.totalCount b) 0);
        [discriminate|].
      destruct (flag_set (BuildStatusData.permissionError b)) eqn:Hflag;
        [discriminate|].
      simpl. intros [= <-]. exists b. repeat split; auto.
    + destruct (loading s); simpl; [discriminate|].
      rewrite orb_true_r. discriminate.
  - intros (b & -> & -> & Hn & -> & ->).
    rewrite andb_false_r. simpl.
    destruct (Z.eqb_spec (BuildStatusData.totalCount b) 0);
      [contradiction | reflexivity].
Qed.

(** X20. The hover panel lists at most five check-runs and three commit
    statuses, the first ones in order.  Beyond five check-runs the line
    "+N more" gives the number left out, so that the rows and N add up to
    the number of check-runs; commit statuses beyond the third are left
    out without such a line.  A block is absent exactly when its list is
    empty. *)
Theorem panel_truncates (b : BuildStatusData.t) :
  let n := length (BuildStatusData.checkRuns b) in
  let k := length (BuildStatusData.commitStatuses b) in
  match checkBlock (panelOf now getTime b) with
  | None => n = 0%nat
  | Some (rows, more) =>
      n <> 0%nat
      /\ rows = map (checkRow now getTime) (firstn 5 (BuildStatusData.checkRuns b))
      /\ length rows = Nat.min 5 n
      /\ more = (if (5 <? n)%nat
                 then Some ("+" ++ showZ (Z.of_nat (n - 5)) ++ " more")
                 else None)
  end
  /\ match statusBlock (panelOf now getTime b) with
     | None => k = 0%nat
     | Some rows =>
         k <> 0%nat
         /\ rows = map statusRow (firstn 3 (BuildStatusData.commitStatuses b))
         /\ length rows = Nat.min 3 k
     end.
Proof.
  cbv zeta. unfold panelOf. cbn [checkBlock statusBlock]. split.
  - destruct (Z.ltb_spec 0
                (Z.of_nat (length (BuildStatusData.checkRuns b))))
      as [Hpos | Hz]; [|lia].
    split; [lia|]. split; [reflexivity|].
    split; [now rewrite length_map, length_firstn|].
    destruct (Z.ltb_spec 5 (Z.of_nat (length (BuildStatusData.checkRuns b))))
      as [H5 | H5];
      destruct (Nat.ltb_spec 5 (length (BuildStatusData.checkRuns b)));
      try lia; [|reflexivity].
    replace (Z.of_nat (length (BuildStatusData.checkRuns b)) - 5)
      with (Z.of_nat (length (BuildStatusData.checkRuns b) - 5)) by lia.
    reflexivity.
  - destruct (Z.ltb_spec 0
                (Z.of_nat (length (BuildStatusData.commitStatuses b))))
      as [Hpos | Hz]; [|lia].
    split; [lia|]. split; [reflexivity|].
    now rewrite length_map, length_firstn.
Qed.

(** X21. The line under the badge text is the age of the most recent
    check-run timestamp when there is one (and it is not empty), and the
    count of check-runs otherwise: "1 check" for one, "N checks" for any
    other number. *)
Theorem subtext_reads (b : BuildStatusData.t) :
  let n := Z.of_nat (length (BuildStatusData.checkRuns b)) in
  match getMostRecentTimestamp getTime b with
  | Some t =>
      if String.eqb t ""
      then subtextLine now getTime b = checkCount n
      else formatTimeAgo now getTime (Some t)
           = Some (subtextLine now getTime b)
  | None => subtextLine now getTime b = checkCount n
  end
  /\ checkCount n
     = (showZ n ++ (if (n =? 1)%Z then " check" else " checks"))%string.
Proof.
  cbv zeta. split.
  - unfold subtextLine, getStatusSubtext.
    destruct (getMostRecentTimestamp getTime b) as [t|]; [|reflexivity].
    destruct (String.eqb_spec t "") as [-> | Ht]; [reflexivity|].
    rewrite (truthy_Some t Ht). simpl negb. cbv iota.
    destruct (formatTimeAgo_not_empty t Ht) as (x & -> & Hx).
    destruct (String.eqb_spec x ""); [contradiction | reflexivity].
  - unfold checkCount.
    destruct (Z.of_nat (length (BuildStatusData.checkRuns b)) =? 1);
      simpl negb; cbv iota.
    + reflexivity.
    + reflexivity.
Qed.

(** X22. Without a configured branch the effect does nothing: whatever
    events are offered, no attempt is made, the state stays the initial
    one, and the component keeps showing the loading indicator. *)
Theorem no_branch_no_polling
    (branch : option string) (events : list Event) (owner repo : string) :
  truthy branch = false ->
  runEffect branch events firstRender = (firstRender, [])
  /\ screen now getTime owner repo
       (fst (runEffect branch events firstRender)) = ShowLoading.
Proof.
  intros Hb. unfold runEffect, startEffect. rewrite Hb. simpl.
  split; reflexivity.
Qed.

End Clock.

Lemma formatDuration_reads_witness :
  formatDuration Samples.isoTime (Some "2024-01-15T10:30:00Z")
    (Some "2024-01-15T10:31:05Z")
  = Some "1m 5s".
Proof.
  refine (proj2 (formatDuration_reads Samples.isoTime
                   (Some "2024-01-15T10:30:00Z") (Some "2024-01-15T10:31:05Z"))
            "2024-01-15T10:30:00Z" "2024-01-15T10:31:05Z"
            eq_refl eq_refl _ _);
    discriminate.
Defined.

Lemma formatTimeAgo_reads_witness :
  formatTimeAgo (Samples.isoTime "2024-01-15T12:45:10Z") Samples.isoTime
    (Some "2024-01-15T10:30:00Z")
  = Some "2h ago".
Proof.
  apply (formatTimeAgo_reads (Samples.isoTime "2024-01-15T12:45:10Z")
           Samples.isoTime "2024-01-15T10:30:00Z").
  discriminate.
Defined.

Lemma no_branch_no_polling_witness :
  runEffect None [Tick; Settled Samples.serverError] firstRender
  = (firstRender, []).
Proof.
  apply (no_branch_no_polling 0 Samples.isoTime None
           [Tick; Settled Samples.serverError]
           "o" "r").
  reflexivity.
Defined.

End DisplayMore.

(** ** The poller against the aggregator *)

Module EndToEnd.

Import Aggregator Poller Display Link Spec.

(** X23. For a result built by the aggregator the badge text is
    "Building...", "Build passing" or "Build failing" according to the
    reduced verdict; the fallbacks "No builds" and the clock icon are
    never shown for it. *)
Theorem aggregator_result_is_never_no_builds
    (sha : string) (checks : GhChecks.t) (combined : GhCombined.t) :
  let v := reduce (GhChecks.check_runs checks) (GhCombined.state combined) in
  let d := buildData sha checks combined in
  ((v = pending /\ getStatusText d = "Building..."
    /\ glyph (getStatusIcon d) = Loader2)
   \/ (v = initial /\ getStatusText d = "Build passing"
       /\ glyph (getStatusIcon d) = CheckCircle2)
   \/ (v = failure /\ getStatusText d = "Build failing"
       /\ glyph (getStatusIcon d) = XCircle))
  /\ getStatusText d <> "No builds"
  /\ glyph (getStatusIcon d) <> Clock.
Proof.
  cbv zeta. unfold buildData, getStatusText, getStatusIcon. simpl.
  destruct (ReductionProps.reduce_cases (GhChecks.check_runs checks)
              (GhCombined.state combined)) as [-> | [-> | ->]];
    simpl; (split; [auto 6 | split; discriminate]).
Qed.

(** X24. A completed check-run whose conclusion is not "success" is drawn
    with the red cross in the hover panel, also when the reduction does
    not count it as failed (skipped, neutral, ...): when such a run is
    among the first five, no run has failed or is running and the combined
    state is clean, the badge reads "Build passing" above a panel that
    holds a red row for it. *)
Theorem unsuccessful_run_is_red_under_a_green_badge
    (now : Z) (getTime : string -> Z) (sha : string)
    (checks : GhChecks.t) (combined : GhCombined.t) (run : GhCheckRun.t) :
  In run (firstn 5 (GhChecks.check_runs checks)) ->
  GhCheckRun.status run = "completed" ->
  GhCheckRun.conclusion run <> Some "success" ->
  (forall r, In r (GhChecks.check_runs checks) -> ~ failed r /\ ~ running r) ->
  GhCombined.state combined = Some "success"
  \/ GhCombined.state combined = None ->
  let d := buildData sha checks combined in
  getStatusText d = "Build passing"
  /\ glyph (getStatusIcon d) = CheckCircle2
  /\ exists rows more row,
       checkBlock (panelOf now getTime d) = Some (rows, more)
       /\ In row rows
       /\ checkName row = GhCheckRun.name run
       /\ glyph (checkIcon row) = XCircle.
Proof.
  intros Hin Hst Hc Hall Hstate. cbv zeta.
  pose proof (ReductionMore.reduce_clean _ _ Hall Hstate) as Hv.
  unfold buildData, getStatusText, getStatusIcon.
  cbn [BuildStatusData.overallStatus BuildStatusData.overallConclusion].
  rewrite Hv. simpl overallStatus. simpl overallConclusion.
  split; [reflexivity|]. split; [reflexivity|].
  unfold panelOf.
  cbn [checkBlock BuildStatusData.checkRuns BuildStatusData.commitStatuses].
  rewrite length_map.
  assert (Hpos : (0 <? Z.of_nat (length (GhChecks.check_runs checks))) = true).
  { apply Z.ltb_lt. destruct (GhChecks.check_runs checks) as [|x l].
    - rewrite firstn_nil in Hin. destruct Hin.
    - simpl length. lia. }
  rewrite Hpos. do 2 eexists.
  exists (checkRow now getTime (normalizeRun run)).
  split; [reflexivity|]. split.
  - rewrite firstn_map. apply in_map, in_map, Hin.
  - unfold checkRow, normalizeRun. simpl. rewrite Hst. simpl.
    apply strict_eq_false in Hc. rewrite Hc. split; reflexivity.
Qed.

Lemma unsuccessful_run_is_red_under_a_green_badge_witness :
  getStatusText
    (buildData "abc123" (GhChecks.mk 1 [Samples.skippedRun])
       (GhCombined.mk None []))
  = "Build passing"
  /\ glyph (getStatusIcon
              (buildData "abc123" (GhChecks.mk 1 [Samples.skippedRun])
                 (GhCombined.mk None [])))
     = CheckCircle2
  /\ exists rows more row,
       checkBlock
         (panelOf 0 Samples.isoTime
            (buildData "abc123" (GhChecks.mk 1 [Samples.skippedRun])
               (GhCombined.mk None [])))
       = Some (rows, more)
       /\ In row rows
       /\ checkName row = "build"
       /\ glyph (checkIcon row) = XCircle.
Proof.
  apply (unsuccessful_run_is_red_under_a_green_badge 0 Samples.isoTime
           "abc123" (GhChecks.mk 1 [Samples.skippedRun])
           (GhCombined.mk None []) Samples.skippedRun).
  - left. reflexivity.
  - reflexivity.
  - discriminate.
  - intros r [<- | []]. split.
    + intros [H | [H | H]]; discriminate H.
    + intros [H | H]; discriminate H.
  - right. reflexivity.
Defined.

(** X25. Against this aggregator one failed poll sets the sentinel:
    whenever the handler does not answer with a success body (no session,
    or any failure behind the error envelope), the poller's counter is 999
    after the call, and no later tick of the mount issues a request as
    long as no request that was still in flight delivers a success
    payload, so none ever does when no other request is in flight.  The
    error recorded is the poller's own text with the HTTP status, not the
    message of the envelope. *)
Theorem aggregator_failure_suspends_poller
    (w : World) (p : Params) (s : State) :
  failures s < 3 ->
  (forall d, body (GET w p) <> SuccessBody d) ->
  failures (fst (pollOnce w p s)) = stop
  /\ (forall n, suspended (mkMachine (fst (pollOnce w p s)) n))
  /\ (isMounted s = true ->
      error (fst (pollOnce w p s))
      = Some ("Failed to fetch build status: " ++ showZ (httpStatus (GET w p)))
      /\ (httpStatus (GET w p) = 401 \/ httpStatus (GET w p) = 500)).
Proof.
  intros Hlt Hno. unfold pollOnce, received.
  assert (Hcode : httpStatus (GET w p) = 401 \/ httpStatus (GET w p) = 500).
  { destruct (HandlerProps.GET_cases w p)
      as [(a & _ & _ & Hr) | [(_ & e & Hr) | (d & _ & Hr)]];
      rewrite Hr; simpl; auto.
    exfalso. apply (Hno d). rewrite Hr. reflexivity. }
  assert (Hok : ok (httpStatus (GET w p)) = false)
    by (destruct Hcode as [-> | ->]; reflexivity).
  assert (Hstop : forall json,
             failures
               (fst (fetchStatus false (Responded (httpStatus (GET w p)) json)
                       s)) = stop)
    by (intros json; now apply PollingProps.not_ok_writes_stop).
  split; [apply Hstop|]. split.
  - intros n. apply PollingProps.stop_suspends. simpl. apply Hstop.
  - intros Hm. split; [|exact Hcode].
    unfold fetchStatus.
    replace (3 <=? failures s) with false
      by (symmetry; apply Z.leb_gt; exact Hlt).
    unfold afterFetch. rewrite Hok. simpl negb. cbv iota.
    destruct s as [bs ld er fl im cb]. simpl in Hm. subst im.
    destruct cb; reflexivity.
Qed.

Lemma aggregator_failure_suspends_poller_witness :
  suspended
    (mkMachine (fst (pollOnce Samples.lostBranch Samples.params mounted)) 0).
Proof.
  apply (aggregator_failure_suspends_poller Samples.lostBranch
           Samples.params mounted).
  - simpl. lia.
  - intros d H. discriminate H.
Defined.



End EndToEnd.
